(** * Instagram Profile Fetcher (src/main.py): a shallow embedding

    The service has three routes: [GET /scrape/{username}] (rate limited,
    cached pass-through to the upstream profile source), [GET /proxy-image/]
    and [GET /health].  The handlers are embedded as functions in a small
    state-and-exception monad; the shared state is the profile cache and the
    rate limiter's storage; the outside world (clock readings, the upstream
    profile source, the outbound HTTP fetch) is an explicit argument.

    Conventions.
    - Python [str] values are [string], the UTF-8 bytes of the text.
      [str.lower] is computed on ASCII text; on text with other characters
      it follows the interpreter's Unicode tables, which are a parameter.
    - Clock readings are integers (seconds).
    - A Python exception is a value of [PyExc]; a computation returns
      [Ret v] or [Raise e]. *)

From Stdlib Require Import ZArith String Ascii List Bool Lia Permutation.
From stdpp Require Import base gmap strings.
Import ListNotations.

Local Open Scope string_scope.
Local Open Scope Z_scope.
Local Open Scope list_scope.

(** ** Strings *)

(** [c.lower()] on one ASCII character. *)
Definition lower_ascii (c : ascii) : ascii :=
  let n := nat_of_ascii c in
  if ((65 <=? n)%nat && (n <=? 90)%nat)%bool then ascii_of_nat (n + 32) else c.

(** [s.lower()] for a string of ASCII characters: the capitals A-Z become
    a-z, every other character stays. *)
Fixpoint ascii_lower (s : string) : string :=
  match s with
  | EmptyString => EmptyString
  | String c s' => String (lower_ascii c) (ascii_lower s')
  end.

(** [s.isascii()]. *)
Fixpoint isascii (s : string) : bool :=
  match s with
  | EmptyString => true
  | String c s' => ((nat_of_ascii c <? 128)%nat && isascii s')%bool
  end.

Section Lower.

(** [s.lower()] for a string that holds a character beyond ASCII: Python
    lower-cases by the Unicode case mappings of the interpreter, a table that
    is not part of src/. *)
Variable ucd : string -> string.

(** [s.lower()]. *)
Definition lower (s : string) : string :=
  if isascii s then ascii_lower s else ucd s.

End Lower.

(** ** Models (main.py, lines 48-59) *)

(** [class ProfileData(BaseModel)]. *)
Record ProfileData := mkProfileData {
  username : string;
  followers : Z;
  following : Z;
  posts_count : Z;
  dp_url : string;
  bio : option string;
  full_name : option string
}.

(** The [detail] argument of an [HTTPException]: the handlers pass either a
    dict with the keys of [class ErrorResponse] or a plain string. *)
Inductive Detail :=
| DetailDict (error : string) (details : string)
| DetailStr (s : string).

(** The record that [instaloader.Profile.from_username] returns, with the
    attributes the handler reads. *)
Module instaloader.
Record Profile := mkProfile {
  userid : option Z;
  username : string;
  followers : Z;
  followees : Z;
  mediacount : Z;
  profile_pic_url : string;
  biography : string;
  full_name : string
}.
End instaloader.

(** Python truth value of [profile.userid]: [None] and [0] are falsy. *)
Definition py_not (v : option Z) : bool :=
  match v with
  | None => true
  | Some z => z =? 0
  end.

(** ** Exceptions *)

(** The exception classes that can reach the handlers, by their place in the
    class hierarchy.  All of them derive from [Exception]. *)
Inductive ExcClass :=
| ProfileNotExistsException              (* instaloader.exceptions *)
| ConnectionException                    (* instaloader.exceptions *)
| ConnectionSubclass (name : string)     (* e.g. TooManyRequestsException *)
| InstaloaderException                   (* the base class itself *)
| InstaloaderSubclass (name : string)    (* e.g. LoginRequiredException *)
| KeyError                               (* builtins *)
| OtherException (name : string).        (* any other subclass of Exception *)

Inductive PyExc :=
| HTTPException (status_code : Z) (detail : Detail)
| Exc (cls : ExcClass) (args : string).

(** [isinstance(e, instaloader.exceptions.ProfileNotExistsException)]. *)
Definition is_ProfileNotExistsException (e : PyExc) : bool :=
  match e with
  | Exc ProfileNotExistsException _ => true
  | _ => false
  end.

(** [isinstance(e, instaloader.exceptions.ConnectionException)]. *)
Definition is_ConnectionException (e : PyExc) : bool :=
  match e with
  | Exc ConnectionException _ | Exc (ConnectionSubclass _) _ => true
  | _ => false
  end.

(** [isinstance(e, instaloader.exceptions.InstaloaderException)]. *)
Definition is_InstaloaderException (e : PyExc) : bool :=
  match e with
  | Exc ProfileNotExistsException _
  | Exc ConnectionException _
  | Exc (ConnectionSubclass _) _
  | Exc InstaloaderException _
  | Exc (InstaloaderSubclass _) _ => true
  | _ => false
  end.

Inductive result (A : Type) :=
| Ret (a : A)
| Raise (e : PyExc).
Arguments Ret {A} a.
Arguments Raise {A} e.

(** ** The profile cache *)

(** The Profile Cache is [cachetools.TTLCache]; main.py constructs it (line
    39, [maxsize=1000, ttl=3600]) and uses its membership test, read, write
    and [len].  The code of the class is not part of src/: its operations
    are modelled from sections 3 and 4.3 of the spec.  The list holds the
    entries from the least to the most recently used one. *)
Module TTLCache.

(** Modelled from the spec: the CacheEntry of the Profile Cache, missing
    from src/: keyed by the normalized username, the value is the record,
    with an expiry timestamp equal to the insertion time plus the TTL. *)

Record Link := mkLink {
  key : string;
  value : ProfileData;
  expires : Z
}.

Definition t := list Link.

Definition maxsize : nat := 1000.
Definition ttl : Z := 3600.

Definition empty : t := [].

Fixpoint find (k : string) (c : t) : option Link :=
  match c with
  | [] => None
  | l :: c' => if String.eqb (key l) k then Some l else find k c'
  end.

Definition remove (k : string) (c : t) : t :=
  List.filter (fun l => negb (String.eqb (key l) k)) c.

(** Modelled from the spec: the purge of the Profile Cache, missing from
    src/: it drops the entries older than the TTL. *)
Definition expire (now : Z) (c : t) : t :=
  List.filter (fun l => now <? expires l) c.

(** Modelled from the spec: the membership test [key in cache] of the
    Profile Cache, missing from src/: an entry older than the TTL is treated
    as absent even if not yet purged.  No purge, no reordering. *)
Definition contains (c : t) (k : string) (now : Z) : bool :=
  match find k c with
  | Some l => now <? expires l
  | None => false
  end.

(** Modelled from the spec: the read [cache[key]] of the Profile Cache,
    missing from src/: an expired entry is never returned; an expired or
    absent entry raises [KeyError].  The entry read becomes the most recently
    used one (recency policy of the eviction). *)
Definition getitem (c : t) (k : string) (now : Z) : result ProfileData * t :=
  match find k c with
  | None => (Raise (Exc KeyError k), c)
  | Some l =>
      let c' := remove k c ++ [l] in
      if now <? expires l then (Ret (value l), c') else (Raise (Exc KeyError k), c')
  end.

(** Modelled from the spec: the eviction of the Profile Cache, missing from
    src/: while there is no room for one more entry, the least recently used
    one is dropped. *)
Fixpoint make_room (c : t) : t :=
  match c with
  | [] => []
  | _ :: c' => if (maxsize <? S (List.length c))%nat then make_room c' else c
  end.

(** Modelled from the spec: the write [cache[key] = value] of the Profile
    Cache, missing from src/: purge, make room if the key is new (capacity
    bounded, a new key evicts by recency when the cache is full), store the
    entry as the most recently used one, expiring one TTL from now. *)
Definition setitem (c : t) (k : string) (v : ProfileData) (now : Z) : t :=
  let c1 := expire now c in
  let c2 := match find k c1 with
            | Some _ => c1
            | None => make_room c1
            end in
  remove k c2 ++ [mkLink k v (now + ttl)].

(** Well-formed caches hold at most one entry per key. *)
Definition wf (c : t) : Prop := List.NoDup (List.map key c).

(** Modelled from the spec: [len(cache)] of the Profile Cache, missing from
    src/: the cache occupancy; expired entries are purged and not counted. *)
Definition len (c : t) (now : Z) : nat * t :=
  let c' := expire now c in (List.length c', c').

End TTLCache.

(** ** The handler monad *)

(** What a request handler did to its collaborators, in program order. *)
Inductive Event :=
| CacheContains (key : string)      (* [key in profile_cache] *)
| CacheGetitem (key : string)       (* [profile_cache[key]] *)
| CacheSetitem (key : string)       (* [profile_cache[key] = ...] *)
| UpstreamQuery (name : string).    (* [Profile.from_username(L.context, name)] *)

(** The state a handler runs in: the shared cache and the trace so far. *)
Record World := mkWorld {
  profile_cache : TTLCache.t;
  trace : list Event
}.

Definition M (A : Type) : Type := World -> result A * World.

Definition ret {A} (a : A) : M A := fun w => (Ret a, w).

Definition raise {A} (e : PyExc) : M A := fun w => (Raise e, w).

Definition bind {A B} (m : M A) (f : A -> M B) : M B :=
  fun w =>
    match m w with
    | (Ret a, w') => f a w'
    | (Raise e, w') => (Raise e, w')
    end.

(** [try: body except ...: ...]: the clauses are tried in order; [None]
    means that no clause matches, and the exception propagates. *)
Definition try_except {A} (body : M A) (clauses : PyExc -> option (M A)) : M A :=
  fun w =>
    match body w with
    | (Ret a, w') => (Ret a, w')
    | (Raise e, w') =>
        match clauses e with
        | Some handler => handler w'
        | None => (Raise e, w')
        end
    end.

Notation "x <- m ;; f" := (bind m (fun x => f))
  (at level 100, m at next level, right associativity).
Notation "m ;;; f" := (bind m (fun _ => f))
  (at level 100, right associativity).

Definition log (ev : Event) : M unit :=
  fun w => (Ret tt, mkWorld (profile_cache w) (trace w ++ [ev])).

Definition cache_contains (k : string) (now : Z) : M bool :=
  log (CacheContains k) ;;;
  fun w => (Ret (TTLCache.contains (profile_cache w) k now), w).

Definition cache_getitem (k : string) (now : Z) : M ProfileData :=
  log (CacheGetitem k) ;;;
  fun w =>
    let (r, c') := TTLCache.getitem (profile_cache w) k now in
    (r, mkWorld c' (trace w)).

Definition cache_setitem (k : string) (v : ProfileData) (now : Z) : M unit :=
  log (CacheSetitem k) ;;;
  fun w => (Ret tt, mkWorld (TTLCache.setitem (profile_cache w) k v now) (trace w)).

(** ** GET /scrape/{username} (main.py, lines 89-147) *)

(** The readings of the cache's timer at the three cache operations of one
    request. *)
Record Clock := mkClock {
  t_contains : Z;
  t_getitem : Z;
  t_setitem : Z
}.

Section Handlers.

(** The Unicode case mappings behind [str.lower]. *)
Variable ucd : string -> string.

(** [str(e)] of an exception object; the exception classes come from
    libraries outside src/. *)
Variable py_str : PyExc -> string.

(** [instaloader.Profile.from_username(L.context, name)] against the
    upstream as it answers during this request. *)
Definition from_username (upstream : string -> result instaloader.Profile)
    (name : string) : M instaloader.Profile :=
  log (UpstreamQuery name) ;;;
  fun w => (upstream name, w).

(** The handler.  Logging and the construction of the upstream client
    ([get_instagram_client]) do not bear on the result and are left out. *)
Definition get_instagram_profile (clk : Clock)
    (upstream : string -> result instaloader.Profile)
    (username : string) : M ProfileData :=
  try_except
    (hit <- cache_contains (lower ucd username) (t_contains clk) ;;
     if hit : bool then
       cache_getitem (lower ucd username) (t_getitem clk)
     else
       profile <-
         try_except
           (from_username upstream (lower ucd username))
           (fun e =>
              if is_ProfileNotExistsException e then
                Some (raise (HTTPException 404
                        (DetailDict "Profile not found"
                           ("@" +:+ username +:+ " doesn't exist"))))
              else None) ;;
       if py_not (instaloader.userid profile) then
         raise (HTTPException 404
                  (DetailDict "Profile not found" "Invalid data from Instagram"))
       else
         let profile_data :=
           mkProfileData
             (instaloader.username profile)
             (instaloader.followers profile)
             (instaloader.followees profile)
             (instaloader.mediacount profile)
             (instaloader.profile_pic_url profile)
             (Some (instaloader.biography profile))
             (Some (instaloader.full_name profile)) in
         cache_setitem (lower ucd username) profile_data (t_setitem clk) ;;;
         ret profile_data)
    (fun e =>
       if is_ConnectionException e then
         Some (raise (HTTPException 503
                 (DetailDict "Instagram connection failed" (py_str e))))
       else if is_InstaloaderException e then
         Some (raise (HTTPException 500
                 (DetailDict "Instagram fetch failed" (py_str e))))
       else
         Some (raise (HTTPException 500
                 (DetailDict "Internal error" (py_str e))))).

(** One request against a cache, with an empty trace to start from. *)
Definition scrape (clk : Clock)
    (upstream : string -> result instaloader.Profile)
    (username : string) (c : TTLCache.t)
    : result ProfileData * TTLCache.t * list Event :=
  let (r, w) := get_instagram_profile clk upstream username (mkWorld c []) in
  (r, profile_cache w, trace w).

End Handlers.

(** ** GET /proxy-image/ (main.py, lines 150-165) *)

(** What [await client.get(url, headers=headers)] does: it raises (connect
    error, timeout, invalid URL, ...) or returns the upstream's response,
    whatever its status code. *)
Inductive HttpxOutcome :=
| HttpxRaises (e : PyExc)
| HttpxResponse (status_code : Z) (content_type : option string) (content : string).

Record StreamingResponse := mkStreamingResponse {
  status_code : Z;
  media_type : string;
  body : string
}.

Definition headers : list (string * string) :=
  [("User-Agent", "Mozilla/5.0");
   ("Accept", "image/webp,image/apng,image/*,*/*;q=0.8");
   ("ngrok-skip-browser-warning", "true")].

(** [resp.headers.get("Content-Type", "image/jpeg")]. *)
Definition headers_get (content_type : option string) (dflt : string) : string :=
  match content_type with
  | Some ct => ct
  | None => dflt
  end.

Definition proxy_image
    (client_get : string -> list (string * string) -> HttpxOutcome)
    (url : string) : result StreamingResponse :=
  match client_get url headers with
  | HttpxResponse _ content_type content =>
      Ret (mkStreamingResponse 200 (headers_get content_type "image/jpeg") content)
  | HttpxRaises e =>
      Raise (HTTPException 500 (DetailStr "Image fetch failed"))
  end.

(** ** GET /health (main.py, lines 172-177) *)

Record Health := mkHealth {
  status : string;
  timestamp : Z;
  cache_size : nat
}.

Definition health_check (wall now : Z) (c : TTLCache.t) : Health * TTLCache.t :=
  let (n, c') := TTLCache.len c now in
  (mkHealth "healthy" wall n, c').

(** ** The rate limiter *)

(** The Rate Limiter is slowapi's [Limiter]; main.py constructs it (line 36)
    and applies ["10/minute"] to the profile handler (line 88).  The code of
    the class is not part of src/: the admission decision is modelled from
    sections 3 and 4.2 of the spec.  The storage maps the key of a counter
    to the count of its current window and the time at which that window
    ends.  The key is what the decorator computes for a request: the client
    address ([get_remote_address]) and, the [Limiter] of line 36 being built
    without a [key_style], the URL path of the request. *)
Module Limiter.

Definition amount : nat := 10.
Definition window : Z := 60.

(** Modelled from the spec: [admit] of the Rate Limiter, missing from src/:
    a window per key, created lazily on the first request, tracks the
    request count of the current window; the count resets when the window
    elapses; the requests beyond the quota within a window are rejected. *)
Definition hit (storage : gmap (string * string) (nat * Z))
    (key : string * string) (now : Z)
    : bool * gmap (string * string) (nat * Z) :=
  let w :=
    match storage !! key with
    | Some (count, reset_at) =>
        if reset_at <=? now then (1%nat, now + window) else (S count, reset_at)
    | None => (1%nat, now + window)
    end in
  ((fst w <=? amount)%nat, <[key := w]> storage).

(** Consecutive requests under one key, at the given times. *)
Fixpoint hits (storage : gmap (string * string) (nat * Z))
    (key : string * string) (times : list Z)
    : list bool * gmap (string * string) (nat * Z) :=
  match times with
  | [] => ([], storage)
  | now :: times' =>
      let (ok, storage') := hit storage key now in
      let (oks, storage'') := hits storage' key times' in
      (ok :: oks, storage'')
  end.

(** Modelled from the spec: the [RateLimited] signal (429) of a rejected
    request, missing from src/. *)
Definition RateLimitExceeded : PyExc :=
  HTTPException 429 (DetailStr "10 per 1 minute").

End Limiter.

(** ** The application *)

Record App := mkApp {
  limiter : gmap (string * string) (nat * Z);
  cache : TTLCache.t
}.

Definition init : App := mkApp ∅ TTLCache.empty.

Inductive Request :=
| GET_scrape (client username : string)
| GET_proxy_image (client url : string)
| GET_health (client : string).

(** The URL path of a request to the profile route, [/scrape/{username}]
    (line 81), with the username as the client typed it. *)
Definition scrape_path_of (username : string) : string :=
  "/scrape/" +:+ username.

(** The key of the counter that [@limiter.limit] charges a request to the
    profile route to: the client address and the URL path. *)
Definition limit_key (client username : string) : string * string :=
  (client, scrape_path_of username).

(** The outside world during one request. *)
Record Env := mkEnv {
  wall_clock : Z;
  clock : Clock;
  upstream : string -> result instaloader.Profile;
  client_get : string -> list (string * string) -> HttpxOutcome
}.

Inductive Response :=
| ProfileResponse (p : ProfileData)            (* 200, response_model=ProfileData *)
| ImageResponse (r : StreamingResponse)
| HealthResponse (h : Health)                  (* 200 *)
| HTTPErrorResponse (status_code : Z) (detail : Detail)  (* status, body *)
| ServerError (e : PyExc).                     (* an exception nobody mapped *)

(** The framework's rendering of what a handler returned or raised. *)
Definition respond {A} (wrap : A -> Response) (r : result A) : Response :=
  match r with
  | Ret a => wrap a
  | Raise (HTTPException sc d) => HTTPErrorResponse sc d
  | Raise e => ServerError e
  end.

Definition response_status (r : Response) : Z :=
  match r with
  | ProfileResponse _ => 200
  | ImageResponse sr => status_code sr
  | HealthResponse _ => 200
  | HTTPErrorResponse sc _ => sc
  | ServerError _ => 500
  end.

Section Application.

Variable ucd : string -> string.
Variable py_str : PyExc -> string.

(** One request.  Only the profile route carries [@limiter.limit]; the
    limiter is asked before the handler body runs, and charges the request
    to the counter of its client address and URL path. *)
Definition handle (env : Env) (req : Request) (app : App)
    : Response * App * list Event :=
  match req with
  | GET_scrape client username =>
      let (admitted, storage') :=
        Limiter.hit (limiter app) (limit_key client username) (wall_clock env) in
      if admitted then
        let '(r, c', tr) :=
          scrape ucd py_str (clock env) (upstream env) username (cache app) in
        (respond ProfileResponse r, mkApp storage' c', tr)
      else
        (respond ProfileResponse (Raise Limiter.RateLimitExceeded),
         mkApp storage' (cache app), [])
  | GET_proxy_image _ url =>
      (respond ImageResponse (proxy_image (client_get env) url), app, [])
  | GET_health _ =>
      (* [len] reads the cache's timer once *)
      let (h, c') := health_check (wall_clock env) (t_contains (clock env)) (cache app) in
      (HealthResponse h, mkApp (limiter app) c', [])
  end.

(** A run of the service: the requests are served one after the other
    (the profile handler never awaits, so it runs to completion). *)
Fixpoint serve (reqs : list (Env * Request)) (app : App) : list Response * App :=
  match reqs with
  | [] => ([], app)
  | (env, req) :: reqs' =>
      let '(r, app', _) := handle env req app in
      let (rs, app'') := serve reqs' app' in
      (r :: rs, app'')
  end.

Inductive reachable : App -> Prop :=
| reachable_init : reachable init
| reachable_step app env req :
    reachable app -> reachable (snd (fst (handle env req app))).

End Application.

(** ** Vocabulary of the properties *)

Section Vocabulary.

Variable ucd : string -> string.
Variable py_str : PyExc -> string.

(** The inner [except ProfileNotExistsException] clause, as a function on
    the exception raised by the upstream. *)
Definition inner_except (username : string) (e : PyExc) : PyExc :=
  if is_ProfileNotExistsException e then
    HTTPException 404
      (DetailDict "Profile not found" ("@" +:+ username +:+ " doesn't exist"))
  else e.

(** The three outer [except] clauses, as a function on the exception
    raised in the body of the outer [try]. *)
Definition outer_except (e : PyExc) : PyExc :=
  if is_ConnectionException e then
    HTTPException 503 (DetailDict "Instagram connection failed" (py_str e))
  else if is_InstaloaderException e then
    HTTPException 500 (DetailDict "Instagram fetch failed" (py_str e))
  else
    HTTPException 500 (DetailDict "Internal error" (py_str e)).

Definition invalid_data : PyExc :=
  HTTPException 404 (DetailDict "Profile not found" "Invalid data from Instagram").

Definition profile_data_of (p : instaloader.Profile) : ProfileData :=
  mkProfileData
    (instaloader.username p) (instaloader.followers p)
    (instaloader.followees p) (instaloader.mediacount p)
    (instaloader.profile_pic_url p)
    (Some (instaloader.biography p)) (Some (instaloader.full_name p)).

(** The four paths cover every request. *)
Inductive scrape_path clk upstream u c : Prop :=
| path_hit :
    TTLCache.contains c (lower ucd u) (t_contains clk) = true ->
    scrape_path clk upstream u c
| path_raise e :
    TTLCache.contains c (lower ucd u) (t_contains clk) = false ->
    upstream (lower ucd u) = Raise e ->
    scrape_path clk upstream u c
| path_invalid p :
    TTLCache.contains c (lower ucd u) (t_contains clk) = false ->
    upstream (lower ucd u) = Ret p ->
    py_not (instaloader.userid p) = true ->
    scrape_path clk upstream u c
| path_ok p :
    TTLCache.contains c (lower ucd u) (t_contains clk) = false ->
    upstream (lower ucd u) = Ret p ->
    py_not (instaloader.userid p) = false ->
    scrape_path clk upstream u c.

End Vocabulary.

(** The key or name an event addresses. *)
Definition event_key (ev : Event) : string :=
  match ev with
  | CacheContains k | CacheGetitem k | CacheSetitem k | UpstreamQuery k => k
  end.

Definition is_upstream_query (ev : Event) : bool :=
  match ev with UpstreamQuery _ => true | _ => false end.

Definition is_cache_write (ev : Event) : bool :=
  match ev with CacheSetitem _ => true | _ => false end.

(** Number of calls of the upstream adapter in a trace. *)
Definition upstream_calls (tr : list Event) : nat :=
  List.length (List.filter is_upstream_query tr).

(** Number of cache writes in a trace. *)
Definition cache_writes (tr : list Event) : nat :=
  List.length (List.filter is_cache_write tr).

(** The JSON object of a 200 response of the profile route: the fields of
    [ProfileData], in declaration order. *)
Inductive JSON :=
| JNull
| JInt (z : Z)
| JStr (s : string).

Definition json_opt (o : option string) : JSON :=
  match o with Some s => JStr s | None => JNull end.

Definition to_json (p : ProfileData) : list (string * JSON) :=
  [("username", JStr (username p));
   ("followers", JInt (followers p));
   ("following", JInt (following p));
   ("posts_count", JInt (posts_count p));
   ("dp_url", JStr (dp_url p));
   ("bio", json_opt (bio p));
   ("full_name", json_opt (full_name p))].

(** A fetch failure of the image proxy in the sense of the specification:
    the fetch raises (network error, timeout) or the upstream answers with
    a status outside 200-299. *)
Definition fetch_failure (o : HttpxOutcome) : Prop :=
  match o with
  | HttpxRaises _ => True
  | HttpxResponse sc _ _ => ~ (200 <= sc < 300)
  end.

Definition ImageFetchFailed : PyExc :=
  HTTPException 500 (DetailStr "Image fetch failed").

(** ** Scenarios *)

(** Case mappings to run the scenarios with: only the ASCII capitals have
    a small letter. *)
Definition ascii_only (s : string) : string := ascii_lower s.

(** A rendering of [str(e)] to run the scenarios with. *)
Definition str_args (e : PyExc) : string :=
  match e with
  | HTTPException _ (DetailDict err _) => err
  | HTTPException _ (DetailStr s) => s
  | Exc _ a => a
  end.

Definition nasa : instaloader.Profile :=
  instaloader.mkProfile (Some 528817151) "nasa" 95000000 60 4200
    "https://.../nasa.jpg" "Explore the universe." "NASA".

(** An upstream that knows the profile of nasa and nothing else. *)
Definition upstream_nasa (name : string) : result instaloader.Profile :=
  if String.eqb name "nasa" then Ret nasa
  else Raise (Exc ProfileNotExistsException ("Profile " +:+ name +:+ " does not exist.")).

(** An upstream whose record of the queried profile has no identity. *)
Definition upstream_no_userid (name : string) : result instaloader.Profile :=
  Ret (instaloader.mkProfile None name 0 0 0 EmptyString EmptyString EmptyString).

(** An upstream that cannot be reached. *)
Definition upstream_down (name : string) : result instaloader.Profile :=
  Raise (Exc ConnectionException "HTTPSConnectionPool: Max retries exceeded").

(** Outbound fetches: one that finds nothing behind the URL, one that times out. *)
Definition fetch_404 (url : string) (hs : list (string * string)) : HttpxOutcome :=
  HttpxResponse 404 (Some "text/html") "<h1>Not Found</h1>".

Definition fetch_timeout (url : string) (hs : list (string * string)) : HttpxOutcome :=
  HttpxRaises (Exc (OtherException "httpx.ConnectTimeout") "timed out").

Definition env_of (wall : Z) (clk : Clock)
    (up : string -> result instaloader.Profile) : Env :=
  mkEnv wall clk up fetch_404.

(** Age of an entry at time [now]: the time since it was stored (the entry
    expires at the time of storing plus the TTL). *)
Definition age (l : TTLCache.Link) (now : Z) : Z :=
  now - (TTLCache.expires l - TTLCache.ttl).

(** A full cache: 1000 live entries under the keys "aaa", "aab", ... *)
Definition key_of_nat (i : nat) : string :=
  String (ascii_of_nat (97 + i / 676))
    (String (ascii_of_nat (97 + (i / 26) mod 26))
       (String (ascii_of_nat (97 + i mod 26)) EmptyString)).

Definition full_cache : TTLCache.t :=
  List.map (fun i => TTLCache.mkLink (key_of_nat i) (profile_data_of nasa)
                       (3600 + Z.of_nat i))
    (List.seq 0 1000).

(** ** Vocabulary of the further properties *)

(** The three shapes of the trace of one request to the profile route. *)
Definition trace_hit (k : string) : list Event :=
  [CacheContains k; CacheGetitem k].

Definition trace_miss (k : string) : list Event :=
  [CacheContains k; UpstreamQuery k].

Definition trace_fetch (k : string) : list Event :=
  [CacheContains k; UpstreamQuery k; CacheSetitem k].

(** The 404 that the handler raises for a profile the upstream does not
    know (lines 104-107). *)
Definition profile_not_found (username : string) : PyExc :=
  HTTPException 404
    (DetailDict "Profile not found" ("@" +:+ username +:+ " doesn't exist")).

(** A request of [client] to the profile route, in the given world. *)
Definition scrape_by (client : string) (x : Env * string) : Env * Request :=
  (fst x, GET_scrape client (snd x)).

Definition is_429 (r : Response) : bool := response_status r =? 429.

(** The counter a request is charged to, if any. *)
Definition route_key (req : Request) : option (string * string) :=
  match req with
  | GET_scrape client username => Some (limit_key client username)
  | GET_proxy_image _ _ | GET_health _ => None
  end.

(** Case mappings that know one word beyond ASCII. *)
Definition ucd_ecole (s : string) : string :=
  if String.eqb s "ÉCOLE" then "école" else ascii_lower s.

(** The world of a request at wall-clock time [t], with the upstream that
    knows nasa. *)
Definition env_at (t : Z) : Env :=
  env_of t (mkClock t t (t + 1)) upstream_nasa.

(** Eleven requests of one client within eleven seconds: ten to
    [/scrape/nasa], the eleventh to [/scrape/NASA]. *)
Definition ten_nasa_then_NASA : list (Env * Request) :=
  List.map (scrape_by "203.0.113.7")
    [(env_at 0, "nasa"); (env_at 1, "nasa"); (env_at 2, "nasa"); (env_at 3, "nasa");
     (env_at 4, "nasa"); (env_at 5, "nasa"); (env_at 6, "nasa"); (env_at 7, "nasa");
     (env_at 8, "nasa"); (env_at 9, "nasa"); (env_at 10, "NASA")].

(** * Properties *)

(** ** The cache *)

Module TTLCacheFacts.
Import TTLCache.

Lemma maxsize_pos : (0 < maxsize)%nat.
Proof. unfold maxsize. lia. Qed.

Lemma find_Some k c l : find k c = Some l -> key l = k /\ In l c.
Proof.
  induction c as [|x c IH]; simpl; [discriminate|].
  destruct (String.eqb (key x) k) eqn:E.
  - intros [= ->]. apply String.eqb_eq in E. auto.
  - intros H. destruct (IH H). auto.
Qed.

Lemma find_None k c l : find k c = None -> In l c -> key l <> k.
Proof.
  induction c as [|x c IH]; simpl; [tauto|].
  destruct (String.eqb (key x) k) eqn:E; [discriminate|].
  intros H [<-|Hin]; [now apply String.eqb_neq|auto].
Qed.

Lemma find_app k c1 c2 :
  find k (c1 ++ c2) =
  match find k c1 with Some l => Some l | None => find k c2 end.
Proof.
  induction c1 as [|x c1 IH]; simpl; [reflexivity|].
  now destruct (String.eqb (key x) k).
Qed.

Lemma find_remove_eq k c : find k (remove k c) = None.
Proof.
  induction c as [|x c IH]; simpl; [reflexivity|].
  destruct (String.eqb (key x) k) eqn:E; simpl; [assumption|].
  now rewrite E.
Qed.

Lemma find_remove_ne k k' c : k <> k' -> find k' (remove k c) = find k' c.
Proof.
  intros Hne. induction c as [|x c IH]; simpl; [reflexivity|].
  destruct (String.eqb (key x) k) eqn:E; simpl.
  - apply String.eqb_eq in E.
    destruct (String.eqb (key x) k') eqn:E'; [|assumption].
    apply String.eqb_eq in E'. congruence.
  - now rewrite IH.
Qed.

(** Moving an entry to the most-recently-used end keeps every lookup. *)
Lemma find_move_to_end k c l k' :
  find k c = Some l -> find k' (remove k c ++ [l]) = find k' c.
Proof.
  intros Hf. destruct (find_Some _ _ _ Hf) as [Hk _].
  rewrite find_app. destruct (String.eqb_spec k k') as [<-|Hne].
  - rewrite find_remove_eq. simpl. rewrite Hk, String.eqb_refl. now symmetry.
  - rewrite (find_remove_ne _ _ _ Hne). destruct (find k' c); [reflexivity|].
    simpl. rewrite Hk. now apply String.eqb_neq in Hne as ->.
Qed.

Lemma remove_length k c : (List.length (remove k c) <= List.length c)%nat.
Proof. apply List.filter_length_le. Qed.

Lemma expire_length now c : (List.length (expire now c) <= List.length c)%nat.
Proof. apply List.filter_length_le. Qed.

Lemma remove_id k c : find k c = None -> remove k c = c.
Proof.
  induction c as [|x c IH]; simpl; [reflexivity|].
  destruct (String.eqb (key x) k); simpl; [discriminate|].
  intros H. now rewrite IH.
Qed.

Lemma remove_In k c l : In l (remove k c) <-> In l c /\ key l <> k.
Proof.
  unfold remove. rewrite List.filter_In, negb_true_iff.
  now rewrite String.eqb_neq.
Qed.

Lemma expire_In now c l : In l (expire now c) <-> In l c /\ now < expires l.
Proof. unfold expire. now rewrite List.filter_In, Z.ltb_lt. Qed.

(** With no expired entry the purge does nothing. *)
Lemma expire_full now c :
  List.length (expire now c) = List.length c -> expire now c = c.
Proof.
  induction c as [|x c IH]; simpl; [reflexivity|].
  destruct (now <? expires x); simpl.
  - intros [= H]. now rewrite IH.
  - intros H. pose proof (expire_length now c). unfold expire in *. lia.
Qed.

Lemma make_room_length c :
  (S (List.length (make_room c)) <= Nat.max maxsize (List.length c))%nat /\
  (List.length (make_room c) < maxsize)%nat.
Proof.
  pose proof maxsize_pos as Hpos.
  induction c as [|x c IH]; [simpl; lia|].
  cbn [make_room]. destruct (Nat.ltb_spec maxsize (S (List.length (x :: c)))).
  - simpl List.length. lia.
  - simpl List.length in *. lia.
Qed.

Lemma make_room_id c : (List.length c < maxsize)%nat -> make_room c = c.
Proof.
  destruct c as [|x c]; [reflexivity|]. intros H. cbn [make_room].
  destruct (Nat.ltb_spec maxsize (S (List.length (x :: c)))); [lia|reflexivity].
Qed.

Lemma make_room_full x c :
  List.length (x :: c) = maxsize -> make_room (x :: c) = c.
Proof.
  intros H. cbn [make_room].
  destruct (Nat.ltb_spec maxsize (S (List.length (x :: c)))); [|lia].
  apply make_room_id. simpl in H. lia.
Qed.

Lemma make_room_incl c l : In l (make_room c) -> In l c.
Proof.
  induction c as [|x c IH]; [auto|]. cbn [make_room].
  destruct (maxsize <? S (List.length (x :: c)))%nat; [|auto].
  intros H. right. auto.
Qed.

Lemma remove_length_lt k c l :
  find k c = Some l -> (S (List.length (remove k c)) <= List.length c)%nat.
Proof.
  induction c as [|x c IH]; simpl; [discriminate|].
  destruct (String.eqb (key x) k); simpl.
  - intros _. pose proof (remove_length k c). unfold remove in *. lia.
  - intros H. specialize (IH H). unfold remove in *. lia.
Qed.

(** An insertion never leaves more than [maxsize] entries behind, as long
    as there were no more than that before. *)
Lemma setitem_length c k v now :
  (List.length c <= maxsize)%nat ->
  (List.length (setitem c k v now) <= maxsize)%nat.
Proof.
  intros Hc. unfold setitem. pose proof (expire_length now c) as He.
  rewrite List.length_app. simpl List.length.
  destruct (find k (expire now c)) as [l|] eqn:Hf.
  - pose proof (remove_length_lt _ _ _ Hf). lia.
  - pose proof (remove_length k (make_room (expire now c))).
    pose proof (make_room_length (expire now c)). lia.
Qed.

Lemma find_setitem_eq c k v now :
  find k (setitem c k v now) = Some (mkLink k v (now + ttl)).
Proof.
  unfold setitem. rewrite find_app, find_remove_eq. simpl.
  now rewrite String.eqb_refl.
Qed.

Lemma getitem_find c k now :
  forall k', find k' (snd (getitem c k now)) = find k' c.
Proof.
  intros k'. unfold getitem. destruct (find k c) as [l|] eqn:Hf; [|reflexivity].
  destruct (now <? expires l); simpl; now apply find_move_to_end.
Qed.

Lemma getitem_length c k now :
  (List.length (snd (getitem c k now)) <= List.length c)%nat.
Proof.
  unfold getitem. destruct (find k c) as [l|] eqn:Hf; [|simpl; lia].
  pose proof (remove_length_lt _ _ _ Hf).
  destruct (now <? expires l); simpl; rewrite List.length_app; simpl; lia.
Qed.

Lemma wf_filter f c : wf c -> wf (List.filter f c).
Proof.
  unfold wf. induction c as [|x c IH]; simpl; [auto|].
  intros H. inversion H as [|? ? Hx Hc]; subst.
  destruct (f x); simpl; [|auto]. constructor; [|auto].
  intros Hin. apply Hx. apply List.in_map_iff in Hin as (y & Hy & Hin).
  apply List.filter_In in Hin as [Hin _]. apply List.in_map_iff. eauto.
Qed.

Lemma wf_make_room c : wf c -> wf (make_room c).
Proof.
  unfold wf. induction c as [|x c IH]; [auto|]. cbn [make_room].
  destruct (maxsize <? S (List.length (x :: c)))%nat; [|auto].
  intros H. inversion H; auto.
Qed.

Lemma wf_move_to_end k c l : wf c -> key l = k -> wf (remove k c ++ [l]).
Proof.
  intros Hc Hk. unfold wf. rewrite List.map_app. apply List.NoDup_app.
  - now apply wf_filter.
  - simpl. constructor; [simpl; tauto|constructor].
  - intros a Ha [<-|[]]. apply List.in_map_iff in Ha as (y & Hy & Hin).
    apply remove_In in Hin. intuition congruence.
Qed.

Lemma wf_setitem c k v now : wf c -> wf (setitem c k v now).
Proof.
  intros Hc. unfold setitem. apply wf_move_to_end; [|reflexivity].
  destruct (find k (expire now c)); [|apply wf_make_room]; now apply wf_filter.
Qed.

Lemma wf_getitem c k now : wf c -> wf (snd (getitem c k now)).
Proof.
  intros Hc. unfold getitem. destruct (find k c) as [l|] eqn:Hf; [|exact Hc].
  destruct (find_Some _ _ _ Hf) as [Hk _].
  destruct (now <? expires l); simpl; now apply wf_move_to_end.
Qed.

Lemma wf_find c l : wf c -> In l c -> find (key l) c = Some l.
Proof.
  unfold wf. induction c as [|x c IH]; simpl; [tauto|].
  intros H Hin. inversion H as [|? ? Hx Hc]; subst.
  destruct (String.eqb_spec (key x) (key l)) as [E|E].
  - destruct Hin as [->|Hin]; [reflexivity|].
    exfalso. apply Hx. rewrite E. now apply List.in_map.
  - destruct Hin as [->|Hin]; [congruence|auto].
Qed.

Lemma find_not_In k c : (forall l, In l c -> key l <> k) -> find k c = None.
Proof.
  induction c as [|x c IH]; simpl; [reflexivity|]. intros H.
  destruct (String.eqb_spec (key x) k) as [E|E]; [exfalso; apply (H x); auto|].
  apply IH. intros l Hl. apply H. now right.
Qed.

(** A purge that shrinks the cache dropped an expired entry. *)
Lemma expire_shrinks now c :
  (List.length (expire now c) < List.length c)%nat ->
  exists l, In l c /\ expires l <= now.
Proof.
  induction c as [|x c IH]; simpl; [lia|].
  destruct (now <? expires x) eqn:E; simpl.
  - intros H. destruct IH as (l & Hl & He); [lia|eauto].
  - intros _. exists x. split; [now left|]. apply Z.ltb_ge in E. lia.
Qed.

(** Inserting a new key into a full cache evicts an entry: its key is
    gone afterwards. *)
Lemma setitem_full_evicts c k v now :
  wf c -> List.length c = maxsize -> find k c = None ->
  exists l, In l c /\ find (key l) (setitem c k v now) = None.
Proof.
  intros Hwf Hlen Hk.
  assert (Hk1 : find k (expire now c) = None).
  { apply find_not_In. intros l Hl. apply expire_In in Hl as [Hl _].
    now apply (find_None k c). }
  unfold setitem. rewrite Hk1.
  destruct (Nat.eq_dec (List.length (expire now c)) (List.length c)) as [E|E].
  - rewrite (expire_full _ _ E). destruct c as [|x c]; [pose proof maxsize_pos; simpl in *; lia|].
    rewrite (make_room_full _ _ Hlen). exists x. split; [now left|].
    assert (key x <> k) by (apply (find_None k (x :: c)); [assumption|now left]).
    rewrite find_app, find_remove_ne by congruence.
    unfold wf in Hwf. simpl in Hwf. inversion Hwf as [|? ? Hx Hc]; subst.
    rewrite find_not_In.
    + simpl. destruct (String.eqb_spec k (key x)); congruence.
    + intros l Hl E'. apply Hx. rewrite <- E'. now apply List.in_map.
  - pose proof (expire_length now c).
    destruct (expire_shrinks now c ltac:(lia)) as (l & Hl & He).
    exists l. split; [assumption|].
    assert (key l <> k) by now apply (find_None k c).
    rewrite find_app, find_remove_ne by congruence.
    rewrite find_not_In.
    + simpl. destruct (String.eqb_spec k (key l)); congruence.
    + intros l' Hl' E'. apply make_room_incl, expire_In in Hl' as [Hl' Hlive].
      pose proof (wf_find c l Hwf Hl) as Hfl.
      pose proof (wf_find c l' Hwf Hl') as Hfl'.
      rewrite E', Hfl in Hfl'. injection Hfl' as <-.
      subst. lia.
Qed.

End TTLCacheFacts.

(** ** The profile handler, path by path *)

Section ScrapeFacts.

Variable ucd : string -> string.
Variable py_str : PyExc -> string.

Lemma scrape_hit clk upstream u c :
  TTLCache.contains c (lower ucd u) (t_contains clk) = true ->
  scrape ucd py_str clk upstream u c =
  (match fst (TTLCache.getitem c (lower ucd u) (t_getitem clk)) with
   | Ret v => Ret v
   | Raise e => Raise (outer_except py_str e)
   end,
   snd (TTLCache.getitem c (lower ucd u) (t_getitem clk)),
   [CacheContains (lower ucd u); CacheGetitem (lower ucd u)]).
Proof.
  intros H. unfold scrape, get_instagram_profile, try_except, bind,
    cache_contains, cache_getitem, log, bind. simpl. rewrite H. simpl.
  destruct (TTLCache.getitem c (lower ucd u) (t_getitem clk)) as [[v|e] c'] eqn:E;
    simpl; [reflexivity|].
  unfold outer_except, raise.
  destruct (is_ConnectionException e); [reflexivity|].
  destruct (is_InstaloaderException e); reflexivity.
Qed.

Lemma scrape_miss_raise clk upstream u c e :
  TTLCache.contains c (lower ucd u) (t_contains clk) = false ->
  upstream (lower ucd u) = Raise e ->
  scrape ucd py_str clk upstream u c =
  (Raise (outer_except py_str (inner_except u e)), c,
   [CacheContains (lower ucd u); UpstreamQuery (lower ucd u)]).
Proof.
  intros H Hup. unfold scrape, get_instagram_profile, try_except, bind,
    cache_contains, from_username, log, bind. simpl. rewrite H. simpl.
  rewrite Hup. unfold inner_except.
  destruct (is_ProfileNotExistsException e) eqn:Hn; simpl; [reflexivity|].
  unfold outer_except, raise.
  destruct (is_ConnectionException e); [reflexivity|].
  destruct (is_InstaloaderException e); reflexivity.
Qed.

Lemma scrape_miss_invalid clk upstream u c p :
  TTLCache.contains c (lower ucd u) (t_contains clk) = false ->
  upstream (lower ucd u) = Ret p ->
  py_not (instaloader.userid p) = true ->
  scrape ucd py_str clk upstream u c =
  (Raise (outer_except py_str invalid_data), c,
   [CacheContains (lower ucd u); UpstreamQuery (lower ucd u)]).
Proof.
  intros H Hup Hid. unfold scrape, get_instagram_profile, try_except, bind,
    cache_contains, from_username, log, bind. simpl. rewrite H. simpl.
  rewrite Hup. simpl. rewrite Hid. reflexivity.
Qed.

Lemma scrape_miss_ok clk upstream u c p :
  TTLCache.contains c (lower ucd u) (t_contains clk) = false ->
  upstream (lower ucd u) = Ret p ->
  py_not (instaloader.userid p) = false ->
  scrape ucd py_str clk upstream u c =
  (Ret (profile_data_of p),
   TTLCache.setitem c (lower ucd u) (profile_data_of p) (t_setitem clk),
   [CacheContains (lower ucd u); UpstreamQuery (lower ucd u); CacheSetitem (lower ucd u)]).
Proof.
  intros H Hup Hid. unfold scrape, get_instagram_profile, try_except, bind,
    cache_contains, cache_setitem, from_username, log, bind, ret. simpl.
  rewrite H. simpl. rewrite Hup. simpl. rewrite Hid. reflexivity.
Qed.

Lemma scrape_paths clk upstream u c : scrape_path ucd clk upstream u c.
Proof.
  destruct (TTLCache.contains c (lower ucd u) (t_contains clk)) eqn:H;
    [now apply path_hit|].
  destruct (upstream (lower ucd u)) as [p|e] eqn:Hup; [|now apply (path_raise _ _ _ _ _ e)].
  destruct (py_not (instaloader.userid p)) eqn:Hid;
    [now apply (path_invalid _ _ _ _ _ p)|now apply (path_ok _ _ _ _ _ p)].
Qed.

Lemma outer_except_status e :
  exists sc err, outer_except py_str e = HTTPException sc (DetailDict err (py_str e)) /\
                 (sc = 503 \/ sc = 500).
Proof.
  unfold outer_except. destruct (is_ConnectionException e); [eauto 6|].
  destruct (is_InstaloaderException e); eauto 6.
Qed.

End ScrapeFacts.

(** ** The claims *)

(** C1 (defect of the code).  The handler means to answer 404 with the body
    [{error: "Profile not found", ...}] when the upstream signals that the
    profile does not exist, or returns a record with an empty [userid]: it
    raises [HTTPException(status_code=404, ...)].  Both raises sit inside the
    outer [try], whose last clause [except Exception] catches them, so the
    client is answered 500 "Internal error".  Evaluated on the scenario's
    request for a profile that does not exist, and on a record without
    identity. *)
Theorem scrape_not_found_answers_500 (ucd : string -> string) (py_str : PyExc -> string) :
  fst (fst (handle ucd py_str (env_of 0 (mkClock 0 0 1) upstream_nasa)
              (GET_scrape "203.0.113.7" "thisuserdoesnotexist123456") init))
  = HTTPErrorResponse 500
      (DetailDict "Internal error"
         (py_str (HTTPException 404
            (DetailDict "Profile not found"
               "@thisuserdoesnotexist123456 doesn't exist"))))
  /\
  fst (fst (handle ucd py_str (env_of 0 (mkClock 0 0 1) upstream_no_userid)
              (GET_scrape "203.0.113.7" "ghost") init))
  = HTTPErrorResponse 500
      (DetailDict "Internal error"
         (py_str (HTTPException 404
            (DetailDict "Profile not found" "Invalid data from Instagram")))).
Proof. split; vm_compute; reflexivity. Qed.

(** The same, for every request that misses the cache. *)
Lemma scrape_not_found_is_internal_error ucd py_str clk upstream u c :
  TTLCache.contains c (lower ucd u) (t_contains clk) = false ->
  (exists e, upstream (lower ucd u) = Raise e /\ is_ProfileNotExistsException e = true) \/
  (exists p, upstream (lower ucd u) = Ret p /\ py_not (instaloader.userid p) = true) ->
  exists e404,
    fst (fst (scrape ucd py_str clk upstream u c))
    = Raise (HTTPException 500 (DetailDict "Internal error" (py_str e404))).
Proof.
  intros Hmiss [(e & Hup & He)|(p & Hup & Hid)].
  - rewrite (scrape_miss_raise ucd py_str _ _ _ _ e Hmiss Hup). simpl.
    unfold inner_except. rewrite He. eexists. reflexivity.
  - rewrite (scrape_miss_invalid ucd py_str _ _ _ _ p Hmiss Hup Hid). simpl.
    eexists. reflexivity.
Qed.

(** C2 as stated fails: an upstream answer with a status outside 200-299 is
    a fetch failure in the claim's sense, and the proxy answers it with 200
    and the upstream's body. *)
Lemma proxy_image_non_2xx_is_200 :
  ~ (forall client_get url,
       fetch_failure (client_get url headers) ->
       proxy_image client_get url = Raise ImageFetchFailed)
  /\ fetch_failure (fetch_404 "https://example.com/img.jpg" headers)
  /\ proxy_image fetch_404 "https://example.com/img.jpg"
     = Ret (mkStreamingResponse 200 "text/html" "<h1>Not Found</h1>").
Proof.
  split; [|split].
  - intros H. specialize (H fetch_404 "https://example.com/img.jpg").
    simpl in H. discriminate H. lia.
  - simpl. lia.
  - reflexivity.
Qed.

(** C2 (amended).  A fetch that raises, whatever the exception (network
    error, timeout), is answered with the one error 500 "Image fetch
    failed", which carries nothing of the exception, and never with 200; a
    fetch that returns a response, whatever its status code, is streamed
    back with status 200. *)
Theorem proxy_image_outcomes client_get url :
  match client_get url headers with
  | HttpxRaises e =>
      proxy_image client_get url = Raise (HTTPException 500 (DetailStr "Image fetch failed"))
      /\ response_status (respond ImageResponse (proxy_image client_get url)) = 500
  | HttpxResponse sc content_type content =>
      proxy_image client_get url
      = Ret (mkStreamingResponse 200 (headers_get content_type "image/jpeg") content)
  end.
Proof.
  unfold proxy_image. destruct (client_get url headers); simpl; auto.
Qed.

(** The handler returns a record or raises an [HTTPException] of status
    503 or 500 whose detail string is [str(e)] of some exception. *)
Lemma scrape_result_shape ucd py_str clk upstream u c :
  match fst (fst (scrape ucd py_str clk upstream u c)) with
  | Ret _ => True
  | Raise (HTTPException sc (DetailDict _ details)) =>
      (sc = 503 \/ sc = 500) /\ exists e, details = py_str e
  | Raise _ => False
  end.
Proof.
  destruct (scrape_paths ucd clk upstream u c) as [H|e H Hup|p H Hup Hid|p H Hup Hid].
  - rewrite (scrape_hit ucd py_str _ _ _ _ H). cbn [fst].
    destruct (fst (TTLCache.getitem c (lower ucd u) (t_getitem clk))) as [v|e]; [exact I|].
    destruct (outer_except_status py_str e) as (sc & err & -> & Hsc). eauto.
  - rewrite (scrape_miss_raise ucd py_str _ _ _ _ e H Hup). cbn [fst].
    destruct (outer_except_status py_str (inner_except u e)) as (sc & err & -> & Hsc).
    eauto.
  - rewrite (scrape_miss_invalid ucd py_str _ _ _ _ p H Hup Hid). cbn [fst].
    destruct (outer_except_status py_str invalid_data) as (sc & err & -> & Hsc).
    eauto.
  - rewrite (scrape_miss_ok ucd py_str _ _ _ _ p H Hup Hid). exact I.
Qed.

(** C3.  On the profile route an upstream connection failure is answered
    503 "Instagram connection failed", any other failure of the upstream
    library 500 "Instagram fetch failed", and any other exception 500
    "Internal error" (also the [KeyError] of an entry that expires between
    the membership test and the read); whatever happens, the handler returns
    a record or raises an [HTTPException] with status 503 or 500 whose body
    carries [str(e)] of the exception as its detail string: no other
    exception leaves the handler, and the client is never answered with an
    exception nobody mapped. *)
Theorem scrape_error_translation ucd py_str clk upstream u c :
  (match fst (fst (scrape ucd py_str clk upstream u c)) with
   | Ret _ => True
   | Raise (HTTPException sc (DetailDict _ details)) =>
       (sc = 503 \/ sc = 500) /\ exists e, details = py_str e
   | Raise _ => False
   end) /\
  (forall e,
     TTLCache.contains c (lower ucd u) (t_contains clk) = false ->
     upstream (lower ucd u) = Raise e ->
     (is_ConnectionException e = true ->
        fst (fst (scrape ucd py_str clk upstream u c))
        = Raise (HTTPException 503
                   (DetailDict "Instagram connection failed" (py_str e)))) /\
     (is_ConnectionException e = false ->
      is_ProfileNotExistsException e = false ->
      is_InstaloaderException e = true ->
        fst (fst (scrape ucd py_str clk upstream u c))
        = Raise (HTTPException 500
                   (DetailDict "Instagram fetch failed" (py_str e)))) /\
     (is_InstaloaderException e = false ->
        fst (fst (scrape ucd py_str clk upstream u c))
        = Raise (HTTPException 500 (DetailDict "Internal error" (py_str e))))) /\
  (forall e,
     TTLCache.contains c (lower ucd u) (t_contains clk) = true ->
     fst (TTLCache.getitem c (lower ucd u) (t_getitem clk)) = Raise e ->
     fst (fst (scrape ucd py_str clk upstream u c))
     = Raise (HTTPException 500 (DetailDict "Internal error" (py_str e)))) /\
  (forall env client app e,
     fst (fst (handle ucd py_str env (GET_scrape client u) app)) <> ServerError e).
Proof.
  split; [|split; [|split]]; cycle 3.
  - intros [wall k up get] client app e. unfold handle. cbn beta iota delta -[Limiter.hit scrape limit_key].
    destruct (Limiter.hit (limiter app) (limit_key client u) wall) as [[|] st]; [|discriminate].
    pose proof (scrape_result_shape ucd py_str k up u (cache app)) as Hs.
    destruct (scrape ucd py_str k up u (cache app)) as [[r c'] tr].
    cbn [fst] in *. destruct r as [v|[sc d|cls a]]; simpl in *;
      [discriminate|discriminate|contradiction].
  - apply scrape_result_shape.
  - intros e H Hup. rewrite (scrape_miss_raise ucd py_str _ _ _ _ e H Hup). simpl.
    unfold inner_except, outer_except.
    destruct e as [sc d|cls a]; [repeat split; intros; (discriminate || reflexivity)|].
    destruct cls; simpl; repeat split; intros; (discriminate || reflexivity).
  - intros e H Hget. rewrite (scrape_hit ucd py_str _ _ _ _ H). simpl. rewrite Hget.
    unfold TTLCache.getitem in Hget.
    destruct (TTLCache.find (lower ucd u) c) as [l|]; simpl in Hget.
    + destruct (t_getitem clk <? TTLCache.expires l); simpl in Hget;
        [discriminate|]. injection Hget as <-. reflexivity.
    + injection Hget as <-. reflexivity.
Qed.

Lemma scrape_error_translation_witness :
  TTLCache.contains TTLCache.empty (lower ascii_only "NASA") 0 = false /\
  upstream_down (lower ascii_only "NASA")
  = Raise (Exc ConnectionException "HTTPSConnectionPool: Max retries exceeded") /\
  fst (fst (scrape ascii_only str_args (mkClock 0 0 1) upstream_down "NASA" TTLCache.empty))
  = Raise (HTTPException 503
             (DetailDict "Instagram connection failed"
                "HTTPSConnectionPool: Max retries exceeded")).
Proof.
  split; [reflexivity|]. split; [reflexivity|].
  destruct (scrape_error_translation ascii_only str_args (mkClock 0 0 1) upstream_down
              "NASA" TTLCache.empty) as (_ & H & _ & _).
  destruct (H (Exc ConnectionException "HTTPSConnectionPool: Max retries exceeded")
              eq_refl eq_refl) as (H503 & _).
  exact (H503 eq_refl).
Defined.

(** A live entry is served from the cache, whatever the upstream would say. *)
Lemma scrape_served_from_cache ucd py_str clk upstream u c l :
  TTLCache.find (lower ucd u) c = Some l ->
  t_contains clk < TTLCache.expires l ->
  t_getitem clk < TTLCache.expires l ->
  scrape ucd py_str clk upstream u c =
  (Ret (TTLCache.value l), TTLCache.remove (lower ucd u) c ++ [l],
   [CacheContains (lower ucd u); CacheGetitem (lower ucd u)]).
Proof.
  intros Hf H1 H2.
  assert (Hc : TTLCache.contains c (lower ucd u) (t_contains clk) = true).
  { unfold TTLCache.contains. rewrite Hf. now apply Z.ltb_lt. }
  rewrite (scrape_hit ucd py_str _ _ _ _ Hc). unfold TTLCache.getitem. rewrite Hf.
  apply Z.ltb_lt in H2. rewrite H2. reflexivity.
Qed.

(** What a successful request leaves in the cache under the normalized
    username: the record it returned. *)
Lemma scrape_success_entry ucd py_str clk upstream u c v c' tr :
  scrape ucd py_str clk upstream u c = (Ret v, c', tr) ->
  exists l,
    TTLCache.find (lower ucd u) c' = Some l /\ TTLCache.value l = v /\
    (if TTLCache.contains c (lower ucd u) (t_contains clk)
     then upstream_calls tr = 0%nat /\ t_getitem clk < TTLCache.expires l
     else upstream_calls tr = 1%nat /\
          TTLCache.expires l = t_setitem clk + TTLCache.ttl /\
          exists p, upstream (lower ucd u) = Ret p /\
                    py_not (instaloader.userid p) = false /\
                    v = profile_data_of p).
Proof.
  destruct (scrape_paths ucd clk upstream u c) as [H|e H Hup|p H Hup Hid|p H Hup Hid].
  - rewrite (scrape_hit ucd py_str _ _ _ _ H), H. unfold TTLCache.getitem.
    destruct (TTLCache.find (lower ucd u) c) as [l|] eqn:Hf; [|discriminate].
    destruct (t_getitem clk <? TTLCache.expires l) eqn:Ht; simpl; [|discriminate].
    intros [= <- <- <-]. exists l. rewrite TTLCacheFacts.find_move_to_end by assumption.
    apply Z.ltb_lt in Ht. auto.
  - rewrite (scrape_miss_raise ucd py_str _ _ _ _ e H Hup). discriminate.
  - rewrite (scrape_miss_invalid ucd py_str _ _ _ _ p H Hup Hid). discriminate.
  - rewrite (scrape_miss_ok ucd py_str _ _ _ _ p H Hup Hid), H. intros [= <- <- <-].
    eexists. rewrite TTLCacheFacts.find_setitem_eq. simpl. eauto 10.
Qed.

(** C4.  Take a successful fetch of a username and a second fetch of it (in
    any letter case) that falls within the TTL window of the entry the first
    fetch read or wrote; for an entry the first fetch wrote, the window ends
    3600 seconds after the write.  Then the second fetch returns the same
    record and does not call the upstream, and the two fetches together call
    it at most once.  A cache hit never calls the upstream. *)
Theorem scrape_twice_within_ttl ucd py_str clk1 up1 clk2 up2 u u2 c v1 c1 tr1 :
  scrape ucd py_str clk1 up1 u c = (Ret v1, c1, tr1) ->
  lower ucd u2 = lower ucd u ->
  exists l,
    TTLCache.find (lower ucd u) c1 = Some l /\
    (TTLCache.contains c (lower ucd u) (t_contains clk1) = false ->
       TTLCache.expires l = t_setitem clk1 + 3600) /\
    (TTLCache.contains c (lower ucd u) (t_contains clk1) = true ->
       upstream_calls tr1 = 0%nat) /\
    (t_contains clk2 < TTLCache.expires l ->
     t_getitem clk2 < TTLCache.expires l ->
       exists c2 tr2,
         scrape ucd py_str clk2 up2 u2 c1 = (Ret v1, c2, tr2) /\
         upstream_calls tr2 = 0%nat /\
         (upstream_calls (tr1 ++ tr2) <= 1)%nat).
Proof.
  intros H1 Hu.
  destruct (scrape_success_entry _ _ _ _ _ _ _ _ _ H1) as (l & Hf & Hv & Hcase).
  exists l. split; [assumption|].
  destruct (TTLCache.contains c (lower ucd u) (t_contains clk1)).
  - destruct Hcase as [Hcalls _]. split; [discriminate|]. split; [auto|].
    intros Ht1 Ht2. rewrite <- Hu in Hf.
    rewrite (scrape_served_from_cache ucd py_str clk2 up2 u2 c1 l Hf Ht1 Ht2), Hv.
    do 2 eexists. split; [reflexivity|]. split; [reflexivity|].
    unfold upstream_calls in *. rewrite List.filter_app, List.length_app, Hcalls.
    simpl. lia.
  - destruct Hcase as (Hcalls & He & _). split; [intros _; exact He|].
    split; [discriminate|].
    intros Ht1 Ht2. rewrite <- Hu in Hf.
    rewrite (scrape_served_from_cache ucd py_str clk2 up2 u2 c1 l Hf Ht1 Ht2), Hv.
    do 2 eexists. split; [reflexivity|]. split; [reflexivity|].
    unfold upstream_calls in *. rewrite List.filter_app, List.length_app, Hcalls.
    simpl. lia.
Qed.

Lemma scrape_twice_within_ttl_witness :
  exists c1 tr1,
    scrape ascii_only str_args (mkClock 0 0 2) upstream_nasa "nasa" TTLCache.empty
    = (Ret (profile_data_of nasa), c1, tr1) /\
    upstream_calls tr1 = 1%nat /\
    exists c2 tr2,
      scrape ascii_only str_args (mkClock 3000 3000 3001) upstream_down "NASA" c1
      = (Ret (profile_data_of nasa), c2, tr2) /\
      upstream_calls tr2 = 0%nat /\
      (upstream_calls (tr1 ++ tr2) <= 1)%nat.
Proof.
  do 2 eexists. split; [reflexivity|]. split; [reflexivity|].
  destruct (scrape_twice_within_ttl ascii_only str_args (mkClock 0 0 2) upstream_nasa
              (mkClock 3000 3000 3001) upstream_down "nasa" "NASA"
              TTLCache.empty _ _ _ eq_refl eq_refl) as (l & Hf & _ & _ & H).
  injection Hf as <-. apply H; reflexivity.
Defined.



(** ** The rate limiter *)

Module LimiterFacts.
Import Limiter.

(** A request inside the current window of its key counts against it. *)
Lemma hit_in_window (storage : gmap (string * string) (nat * Z)) key count reset_at now :
  storage !! key = Some (count, reset_at) ->
  now < reset_at ->
  hit storage key now
  = ((S count <=? amount)%nat, <[key := (S count, reset_at)]> storage).
Proof.
  intros Hs Hlt. unfold hit. rewrite Hs.
  destruct (Z.leb_spec reset_at now); [lia|reflexivity].
Qed.

(** A request with no current window opens one and is admitted. *)
Lemma hit_new_window (storage : gmap (string * string) (nat * Z)) key now :
  match storage !! key with
  | Some (_, reset_at) => reset_at <= now
  | None => True
  end ->
  hit storage key now = (true, <[key := (1%nat, now + window)]> storage).
Proof.
  unfold hit. destruct (storage !! key) as [[count reset_at]|]; [|reflexivity].
  intros H. destruct (Z.leb_spec reset_at now); [reflexivity|lia].
Qed.

(** The windows of different keys do not interfere. *)
Lemma hit_other (storage : gmap (string * string) (nat * Z)) key key' now :
  key <> key' ->
  snd (hit storage key' now) !! key = storage !! key.
Proof. intros Hne. unfold hit. simpl. now rewrite lookup_insert_ne. Qed.

Lemma hits_in_window times :
  forall (storage : gmap (string * string) (nat * Z)) key count reset_at,
    storage !! key = Some (count, reset_at) ->
    Forall (fun t => t < reset_at) times ->
    fst (hits storage key times)
    = List.map (fun i => (S count + i <=? amount)%nat)
        (List.seq 0 (List.length times)) /\
    snd (hits storage key times) !! key
    = Some ((count + List.length times)%nat, reset_at).
Proof.
  induction times as [|now times IH]; intros storage key count reset_at Hs Hall.
  - simpl. split; [reflexivity|]. rewrite Hs. do 2 f_equal. lia.
  - inversion Hall as [|? ? Hnow Hrest]; subst.
    cbn [hits]. rewrite (hit_in_window _ _ _ _ _ Hs Hnow).
    specialize (IH (<[key := (S count, reset_at)]> storage) key (S count) reset_at).
    rewrite lookup_insert_eq in IH. destruct (IH eq_refl Hrest) as [IHf IHs].
    destruct (hits (<[key := (S count, reset_at)]> storage) key times)
      as [oks storage''].
    cbn [fst snd] in *. split.
    + rewrite IHf. cbn [List.length List.seq List.map].
      rewrite Nat.add_0_r. f_equal.
      rewrite <- List.seq_shift, List.map_map.
      apply List.map_ext. intros i. f_equal. lia.
    + rewrite IHs. cbn [List.length]. do 2 f_equal. lia.
Qed.

(** The requests of one window: the first ten are admitted, the others are
    rejected, and the window still ends [window] after its first request. *)
Lemma hits_window (storage : gmap (string * string) (nat * Z)) key t0 times :
  match storage !! key with
  | Some (_, reset_at) => reset_at <= t0
  | None => True
  end ->
  Forall (fun t => t0 <= t < t0 + window) times ->
  fst (hits storage key (t0 :: times))
  = List.map (fun i => (i <? amount)%nat) (List.seq 0 (S (List.length times))) /\
  snd (hits storage key (t0 :: times)) !! key
  = Some (S (List.length times), t0 + window).
Proof.
  intros Hfresh Hall. cbn [hits]. rewrite (hit_new_window _ _ _ Hfresh).
  pose proof (hits_in_window times (<[key := (1%nat, t0 + window)]> storage)
                key 1%nat (t0 + window)) as H.
  rewrite lookup_insert_eq in H.
  destruct (H eq_refl) as [Hf Hs].
  { revert Hall. apply List.Forall_impl. intros t Ht. lia. }
  destruct (hits (<[key := (1%nat, t0 + window)]> storage) key times)
    as [oks storage''].
  cbn [fst snd] in *. split; [|exact Hs].
  rewrite Hf. cbn [List.seq List.map]. f_equal.
  rewrite <- List.seq_shift, List.map_map.
  apply List.map_ext. intros i.
  destruct (Nat.leb_spec (2 + i) amount), (Nat.ltb_spec (S i) amount);
    (reflexivity || lia).
Qed.

End LimiterFacts.

(** What the profile route does with the limiter: the request is charged
    to the counter of its client and path, and it is answered 429 exactly
    when the limiter rejects it. *)
Lemma handle_scrape_limiter ucd py_str env client u app :
  limiter (snd (fst (handle ucd py_str env (GET_scrape client u) app)))
  = snd (Limiter.hit (limiter app) (limit_key client u) (wall_clock env)) /\
  is_429 (fst (fst (handle ucd py_str env (GET_scrape client u) app)))
  = negb (fst (Limiter.hit (limiter app) (limit_key client u) (wall_clock env))).
Proof.
  destruct env as [wall k up get]. unfold handle.
  cbn beta iota delta -[Limiter.hit scrape limit_key].
  destruct (Limiter.hit (limiter app) (limit_key client u) wall) as [[|] st];
    [|split; reflexivity].
  pose proof (scrape_result_shape ucd py_str k up u (cache app)) as Hs.
  destruct (scrape ucd py_str k up u (cache app)) as [[r c'] tr].
  cbn [fst snd limiter] in *. split; [reflexivity|].
  destruct r as [v|[sc [err det|s]|cls a]]; simpl in *;
    [reflexivity| |contradiction|contradiction].
  destruct Hs as [[-> | ->] _]; reflexivity.
Qed.

(** A run of requests of one client to one path. *)
Lemma serve_one_path ucd py_str client u envs :
  forall app,
    List.map is_429
      (fst (serve ucd py_str (List.map (fun env => scrape_by client (env, u)) envs) app))
    = List.map negb
        (fst (Limiter.hits (limiter app) (limit_key client u)
                (List.map wall_clock envs))) /\
    limiter (snd (serve ucd py_str
                    (List.map (fun env => scrape_by client (env, u)) envs) app))
    = snd (Limiter.hits (limiter app) (limit_key client u)
             (List.map wall_clock envs)).
Proof.
  induction envs as [|env envs IH]; intros app; [split; reflexivity|].
  cbn [List.map serve scrape_by Limiter.hits fst snd].
  destruct (handle_scrape_limiter ucd py_str env client u app) as [Hl H429].
  destruct (handle ucd py_str env (GET_scrape client u) app) as [[r app'] tr].
  cbn [fst snd] in *. destruct (IH app') as [IHf IHs]. rewrite Hl in IHf, IHs.
  destruct (Limiter.hit (limiter app) (limit_key client u) (wall_clock env)) as [ok st].
  cbn [fst snd] in *.
  destruct (serve ucd py_str (List.map (fun env => scrape_by client (env, u)) envs) app')
    as [rs app''].
  destruct (Limiter.hits st (limit_key client u) (List.map wall_clock envs))
    as [oks st'].
  cbn [fst snd List.map] in *. split; [now rewrite H429, IHf|exact IHs].
Qed.

(** C5 as stated fails: the limiter counts per client address and URL
    path, not per client.  A client that sends ten requests to [/scrape/nasa]
    and, within the same minute, an eleventh to [/scrape/NASA] is answered
    200 eleven times. *)
Lemma rate_limit_not_per_client :
  List.map response_status (fst (serve ascii_only str_args ten_nasa_then_NASA init))
  = [200; 200; 200; 200; 200; 200; 200; 200; 200; 200; 200]
  /\
  ~ (forall client (x0 : Env * string) rest,
       Forall (fun x => wall_clock (fst x0) <= wall_clock (fst x)
                        < wall_clock (fst x0) + 60) rest ->
       List.map is_429
         (fst (serve ascii_only str_args (List.map (scrape_by client) (x0 :: rest)) init))
       = List.map (fun i => negb (i <? 10)%nat) (List.seq 0 (S (List.length rest)))).
Proof.
  split; [vm_compute; reflexivity|].
  intros H.
  specialize (H "203.0.113.7" (env_at 0, "nasa")
                [(env_at 1, "nasa"); (env_at 2, "nasa"); (env_at 3, "nasa");
                 (env_at 4, "nasa"); (env_at 5, "nasa"); (env_at 6, "nasa");
                 (env_at 7, "nasa"); (env_at 8, "nasa"); (env_at 9, "nasa");
                 (env_at 10, "NASA")]).
  assert (Hin : Forall (fun x : Env * string =>
                          wall_clock (fst (env_at 0, "nasa")) <= wall_clock (fst x)
                          < wall_clock (fst (env_at 0, "nasa")) + 60)
                  [(env_at 1, "nasa"); (env_at 2, "nasa"); (env_at 3, "nasa");
                   (env_at 4, "nasa"); (env_at 5, "nasa"); (env_at 6, "nasa");
                   (env_at 7, "nasa"); (env_at 8, "nasa"); (env_at 9, "nasa");
                   (env_at 10, "NASA")]) by (repeat constructor; simpl; lia).
  specialize (H Hin). vm_compute in H. discriminate H.
Qed.

(** C5 (amended).  Of the requests a client sends to one URL path of the
    profile route (one username as typed) within one 60-second window of the
    limiter, which opens with the first of them, the first ten are not
    answered 429 and every later one is, whatever the upstream and the cache;
    once the window has elapsed, the client's next request to that path is
    admitted again.  The requests to another path, of another client or to
    another route do not touch the counter.  A request answered 429 does no
    cache or upstream work.  The image proxy and the health check neither
    change the limiter nor are ever answered 429. *)
Theorem rate_limit_per_client_and_path ucd py_str client u env0 envs app :
  match limiter app !! limit_key client u with
  | Some (_, reset_at) => reset_at <= wall_clock env0
  | None => True
  end ->
  Forall (fun env => wall_clock env0 <= wall_clock env < wall_clock env0 + 60) envs ->
  List.map is_429
    (fst (serve ucd py_str
            (List.map (fun env => scrape_by client (env, u)) (env0 :: envs)) app))
  = List.map (fun i => negb (i <? 10)%nat) (List.seq 0 (S (List.length envs)))
  /\
  (forall env,
     wall_clock env0 + 60 <= wall_clock env ->
     is_429 (fst (fst (handle ucd py_str env (GET_scrape client u)
                         (snd (serve ucd py_str
                                 (List.map (fun env => scrape_by client (env, u))
                                    (env0 :: envs)) app)))))
     = false)
  /\
  (forall env req app0,
     route_key req <> Some (limit_key client u) ->
     limiter (snd (fst (handle ucd py_str env req app0))) !! limit_key client u
     = limiter app0 !! limit_key client u)
  /\
  (forall env client' u' app0,
     is_429 (fst (fst (handle ucd py_str env (GET_scrape client' u') app0))) = true ->
     cache (snd (fst (handle ucd py_str env (GET_scrape client' u') app0))) = cache app0 /\
     snd (handle ucd py_str env (GET_scrape client' u') app0) = [])
  /\
  (forall env req app0,
     route_key req = None ->
     limiter (snd (fst (handle ucd py_str env req app0))) = limiter app0 /\
     is_429 (fst (fst (handle ucd py_str env req app0))) = false).
Proof.
  intros Hfresh Hall.
  destruct (serve_one_path ucd py_str client u (env0 :: envs) app) as [Hflags Hstate].
  assert (Htimes : Forall (fun t => wall_clock env0 <= t < wall_clock env0 + Limiter.window)
                     (List.map wall_clock envs)).
  { apply List.Forall_map. exact Hall. }
  destruct (LimiterFacts.hits_window _ _ _ _ Hfresh Htimes) as [Hw Hs].
  refine (conj _ (conj _ (conj _ (conj _ _)))).
  - rewrite Hflags. cbn [List.map]. rewrite Hw.
    rewrite List.length_map, List.map_map. reflexivity.
  - intros env Hlate.
    destruct (handle_scrape_limiter ucd py_str env client u
                (snd (serve ucd py_str
                        (List.map (fun env => scrape_by client (env, u)) (env0 :: envs))
                        app))) as [_ ->].
    rewrite Hstate. cbn [List.map]. rewrite LimiterFacts.hit_new_window; [reflexivity|].
    rewrite Hs. unfold Limiter.window. lia.
  - intros env [client' u'|client' url|client'] app0 Hne.
    + destruct (handle_scrape_limiter ucd py_str env client' u' app0) as [-> _].
      apply LimiterFacts.hit_other. intros E. apply Hne. simpl. now rewrite E.
    + reflexivity.
    + reflexivity.
  - intros env client' u' app0 H429.
    destruct (handle_scrape_limiter ucd py_str env client' u' app0) as [_ Hneg].
    rewrite H429 in Hneg. revert H429. unfold handle.
    destruct (Limiter.hit (limiter app0) (limit_key client' u') (wall_clock env))
      as [[|] st]; [discriminate Hneg|]. intros _. split; reflexivity.
  - intros env [client' u'|client' url|client'] app0 Hnone; [discriminate| |].
    + unfold handle, proxy_image. cbn [fst snd].
      destruct (client_get env url headers); split; reflexivity.
    + split; reflexivity.
Qed.

Lemma rate_limit_per_client_and_path_witness :
  List.map is_429
    (fst (serve ascii_only str_args
            (List.map (fun env => scrape_by "203.0.113.7" (env, "NASA"))
               [env_at 0; env_at 5; env_at 10; env_at 15; env_at 20; env_at 25;
                env_at 30; env_at 35; env_at 40; env_at 45; env_at 50; env_at 55])
            init))
  = [false; false; false; false; false; false; false; false; false; false; true; true]
  /\
  is_429 (fst (fst (handle ascii_only str_args (env_at 60) (GET_scrape "203.0.113.7" "NASA")
                      (snd (serve ascii_only str_args
                              (List.map (fun env => scrape_by "203.0.113.7" (env, "NASA"))
                                 [env_at 0; env_at 5; env_at 10; env_at 15; env_at 20;
                                  env_at 25; env_at 30; env_at 35; env_at 40; env_at 45;
                                  env_at 50; env_at 55])
                              init)))))
  = false.
Proof.
  destruct (rate_limit_per_client_and_path ascii_only str_args "203.0.113.7" "NASA"
              (env_at 0)
              [env_at 5; env_at 10; env_at 15; env_at 20; env_at 25; env_at 30;
               env_at 35; env_at 40; env_at 45; env_at 50; env_at 55] init)
    as (Hflags & Hroll & _).
  - exact I.
  - repeat constructor; simpl; lia.
  - split; [exact Hflags|]. apply Hroll. simpl. lia.
Defined.

(** C8.  A fetch that succeeds upstream is answered 200 with a record whose
    fields are the upstream's, one for one: [followers] from [followers],
    [following] from [followees], [posts_count] from [mediacount], [dp_url]
    from [profile_pic_url], [bio] from [biography] and [full_name] from
    [full_name]. *)
Theorem scrape_success_fields ucd py_str clk upstream u c p :
  TTLCache.contains c (lower ucd u) (t_contains clk) = false ->
  upstream (lower ucd u) = Ret p ->
  py_not (instaloader.userid p) = false ->
  exists pd,
    fst (fst (scrape ucd py_str clk upstream u c)) = Ret pd /\
    response_status (respond ProfileResponse (Ret pd)) = 200 /\
    followers pd = instaloader.followers p /\
    following pd = instaloader.followees p /\
    posts_count pd = instaloader.mediacount p /\
    dp_url pd = instaloader.profile_pic_url p /\
    bio pd = Some (instaloader.biography p) /\
    full_name pd = Some (instaloader.full_name p) /\
    to_json pd
    = [("username", JStr (instaloader.username p));
       ("followers", JInt (instaloader.followers p));
       ("following", JInt (instaloader.followees p));
       ("posts_count", JInt (instaloader.mediacount p));
       ("dp_url", JStr (instaloader.profile_pic_url p));
       ("bio", JStr (instaloader.biography p));
       ("full_name", JStr (instaloader.full_name p))].
Proof.
  intros Hmiss Hup Hid. exists (profile_data_of p).
  rewrite (scrape_miss_ok ucd py_str _ _ _ _ p Hmiss Hup Hid).
  repeat split; reflexivity.
Qed.

(** The scenario of [/scrape/nasa]. *)
Lemma scrape_nasa_scenario :
  TTLCache.contains TTLCache.empty (lower ascii_only "nasa") 0 = false /\
  upstream_nasa (lower ascii_only "nasa") = Ret nasa /\
  py_not (instaloader.userid nasa) = false /\
  exists pd,
    fst (fst (scrape ascii_only str_args (mkClock 0 0 2) upstream_nasa "nasa" TTLCache.empty))
    = Ret pd /\
    posts_count pd = instaloader.mediacount nasa /\
    to_json pd
    = [("username", JStr "nasa");
       ("followers", JInt 95000000);
       ("following", JInt 60);
       ("posts_count", JInt 4200);
       ("dp_url", JStr "https://.../nasa.jpg");
       ("bio", JStr "Explore the universe.");
       ("full_name", JStr "NASA")].
Proof.
  split; [reflexivity|]. split; [reflexivity|]. split; [reflexivity|].
  destruct (scrape_success_fields ascii_only str_args (mkClock 0 0 2) upstream_nasa "nasa"
              TTLCache.empty nasa eq_refl eq_refl eq_refl)
    as (pd & Hr & _ & _ & _ & Hposts & _ & _ & _ & Hjson).
  exists pd. split; [exact Hr|]. split; [exact Hposts|exact Hjson].
Defined.

(** C10.  The record a successful fetch returns is the one stored under the
    lower-cased request string, and every cache operation of the request
    uses that key; when the record comes from the upstream, its [username] is
    the upstream's, so it differs from the request string whenever the
    upstream's spelling does. *)
Theorem scrape_username_is_upstream ucd py_str clk upstream u c pd c' tr :
  scrape ucd py_str clk upstream u c = (Ret pd, c', tr) ->
  (exists l, TTLCache.find (lower ucd u) c' = Some l /\
             TTLCache.key l = lower ucd u /\ TTLCache.value l = pd) /\
  (forall ev, In ev tr -> event_key ev = lower ucd u) /\
  (TTLCache.contains c (lower ucd u) (t_contains clk) = false ->
     exists p, upstream (lower ucd u) = Ret p /\
               username pd = instaloader.username p /\
               (instaloader.username p <> u -> username pd <> u)).
Proof.
  intros H.
  destruct (scrape_success_entry _ _ _ _ _ _ _ _ _ H) as (l & Hf & Hv & Hcase).
  split; [|split].
  - exists l. destruct (TTLCacheFacts.find_Some _ _ _ Hf). auto.
  - destruct (scrape_paths ucd clk upstream u c) as [Hc|e Hc Hup|p Hc Hup Hid|p Hc Hup Hid].
    + rewrite (scrape_hit ucd py_str _ _ _ _ Hc) in H. injection H as _ _ <-.
      intros ev [<-|[<-|[]]]; reflexivity.
    + rewrite (scrape_miss_raise ucd py_str _ _ _ _ e Hc Hup) in H. discriminate.
    + rewrite (scrape_miss_invalid ucd py_str _ _ _ _ p Hc Hup Hid) in H. discriminate.
    + rewrite (scrape_miss_ok ucd py_str _ _ _ _ p Hc Hup Hid) in H. injection H as _ _ <-.
      intros ev [<-|[<-|[<-|[]]]]; reflexivity.
  - intros Hmiss. rewrite Hmiss in Hcase.
    destruct Hcase as (_ & _ & p & Hup & _ & ->). exists p. simpl. auto.
Qed.

Lemma scrape_username_is_upstream_witness :
  exists c' tr,
    scrape ascii_only str_args (mkClock 0 0 2) upstream_nasa "NASA" TTLCache.empty
    = (Ret (profile_data_of nasa), c', tr) /\
    (exists l, TTLCache.find "nasa" c' = Some l /\
               TTLCache.key l = "nasa" /\
               TTLCache.value l = profile_data_of nasa) /\
    username (profile_data_of nasa) <> "NASA".
Proof.
  do 2 eexists. split; [reflexivity|].
  destruct (scrape_username_is_upstream ascii_only str_args (mkClock 0 0 2) upstream_nasa
              "NASA" TTLCache.empty _ _ _ eq_refl) as (Hkey & _ & Hname).
  split; [exact Hkey|].
  destruct (Hname eq_refl) as (p & Hp & _ & Hne).
  injection Hp as <-. apply Hne. discriminate.
Defined.

(** C7.  Every cache lookup, cache insertion and upstream query of a request
    uses the lower-cased username, [username.lower()]; two requests whose
    usernames differ only in letter case therefore run the same operations on
    the same cache entry and the same upstream profile, leave the same cache
    behind, and a record returned to one is returned to the other.  For a
    username of ASCII characters the lower-cased name has the same length,
    with every capital letter A-Z replaced by its small letter and every
    other character kept; for any other username it is what the Unicode case
    mappings of [str.lower] give. *)
Theorem scrape_normalizes_username ucd py_str clk upstream u c :
  (forall ev, In ev (snd (scrape ucd py_str clk upstream u c)) -> event_key ev = lower ucd u) /\
  (forall u',
     lower ucd u' = lower ucd u ->
     snd (scrape ucd py_str clk upstream u' c) = snd (scrape ucd py_str clk upstream u c) /\
     snd (fst (scrape ucd py_str clk upstream u' c))
     = snd (fst (scrape ucd py_str clk upstream u c)) /\
     (forall pd, fst (fst (scrape ucd py_str clk upstream u c)) = Ret pd ->
                 fst (fst (scrape ucd py_str clk upstream u' c)) = Ret pd)) /\
  (isascii u = true ->
     String.length (lower ucd u) = String.length u /\
     forall i a,
       String.get i u = Some a ->
       String.get i (lower ucd u)
       = Some (if ((65 <=? nat_of_ascii a)%nat && (nat_of_ascii a <=? 90)%nat)%bool
               then ascii_of_nat (nat_of_ascii a + 32)
               else a)) /\
  (isascii u = false -> lower ucd u = ucd u).
Proof.
  split; [|split; [|split]]; cycle 2.
  - intros Hascii. unfold lower. rewrite Hascii. clear Hascii. split.
    + induction u as [|a u IH]; [reflexivity|]. simpl. now rewrite IH.
    + induction u as [|a u IH]; intros i b; [destruct i; discriminate|].
      destruct i as [|i]; simpl.
      * intros [= <-]. reflexivity.
      * apply IH.
  - intros Hascii. unfold lower. now rewrite Hascii.
  - destruct (scrape_paths ucd clk upstream u c) as [Hc|e Hc Hup|p Hc Hup Hid|p Hc Hup Hid].
    + rewrite (scrape_hit ucd py_str _ _ _ _ Hc).
      intros ev [<-|[<-|[]]]; reflexivity.
    + rewrite (scrape_miss_raise ucd py_str _ _ _ _ e Hc Hup).
      intros ev [<-|[<-|[]]]; reflexivity.
    + rewrite (scrape_miss_invalid ucd py_str _ _ _ _ p Hc Hup Hid).
      intros ev [<-|[<-|[]]]; reflexivity.
    + rewrite (scrape_miss_ok ucd py_str _ _ _ _ p Hc Hup Hid).
      intros ev [<-|[<-|[<-|[]]]]; reflexivity.
  - intros u' Hu.
    destruct (scrape_paths ucd clk upstream u c) as [Hc|e Hc Hup|p Hc Hup Hid|p Hc Hup Hid].
    + rewrite (scrape_hit ucd py_str _ _ _ _ Hc).
      rewrite <- Hu in Hc. rewrite (scrape_hit ucd py_str _ _ _ _ Hc), Hu. cbn [fst snd].
      split; [reflexivity|]. split; [reflexivity|]. intros pd Hpd.
      destruct (fst (TTLCache.getitem c (lower ucd u) (t_getitem clk))); congruence.
    + rewrite (scrape_miss_raise ucd py_str _ _ _ _ e Hc Hup).
      rewrite <- Hu in Hc, Hup. rewrite (scrape_miss_raise ucd py_str _ _ _ _ e Hc Hup), Hu.
      cbn [fst snd]. split; [reflexivity|]. split; [reflexivity|]. discriminate.
    + rewrite (scrape_miss_invalid ucd py_str _ _ _ _ p Hc Hup Hid).
      rewrite <- Hu in Hc, Hup.
      rewrite (scrape_miss_invalid ucd py_str _ _ _ _ p Hc Hup Hid), Hu.
      cbn [fst snd]. split; [reflexivity|]. split; [reflexivity|]. discriminate.
    + rewrite (scrape_miss_ok ucd py_str _ _ _ _ p Hc Hup Hid).
      rewrite <- Hu in Hc, Hup.
      rewrite (scrape_miss_ok ucd py_str _ _ _ _ p Hc Hup Hid), Hu.
      cbn [fst snd]. split; [reflexivity|]. split; [reflexivity|]. auto.
Qed.

Lemma scrape_normalizes_username_witness :
  lower ascii_only "NaSa" = lower ascii_only "nasa" /\
  snd (scrape ascii_only str_args (mkClock 0 0 2) upstream_nasa "NaSa" TTLCache.empty)
  = [CacheContains "nasa"; UpstreamQuery "nasa"; CacheSetitem "nasa"] /\
  snd (fst (scrape ascii_only str_args (mkClock 0 0 2) upstream_nasa "NaSa" TTLCache.empty))
  = snd (fst (scrape ascii_only str_args (mkClock 0 0 2) upstream_nasa "nasa" TTLCache.empty)) /\
  fst (fst (scrape ascii_only str_args (mkClock 0 0 2) upstream_nasa "NaSa" TTLCache.empty))
  = Ret (profile_data_of nasa) /\
  (isascii "Nat_Geo.1" = true /\
   String.length (lower ascii_only "Nat_Geo.1") = 9%nat /\
   String.get 0 (lower ascii_only "Nat_Geo.1") = Some "n"%char /\
   String.get 3 (lower ascii_only "Nat_Geo.1") = Some "_"%char /\
   String.get 4 (lower ascii_only "Nat_Geo.1") = Some "g"%char) /\
  forall ev,
    In ev (snd (scrape ascii_only str_args (mkClock 0 0 2) upstream_nasa "Nat_Geo.1"
                  TTLCache.empty)) ->
    event_key ev = "nat_geo.1".
Proof.
  destruct (scrape_normalizes_username ascii_only str_args (mkClock 0 0 2) upstream_nasa
              "nasa" TTLCache.empty) as (_ & H & _).
  destruct (H "NaSa" eq_refl) as (Htr & Hc & Hr).
  split; [reflexivity|]. split; [rewrite Htr; reflexivity|].
  split; [exact Hc|]. split; [apply Hr; reflexivity|].
  destruct (scrape_normalizes_username ascii_only str_args (mkClock 0 0 2) upstream_nasa
              "Nat_Geo.1" TTLCache.empty) as (Hkeys & _ & Hascii & _).
  destruct (Hascii eq_refl) as [Hlen Hget].
  split.
  - split; [reflexivity|]. split; [exact Hlen|].
    split; [exact (Hget 0%nat "N"%char eq_refl)|].
    split; [exact (Hget 3%nat "_"%char eq_refl)|exact (Hget 4%nat "G"%char eq_refl)].
  - exact Hkeys.
Defined.

(** Moving an entry of a well-formed cache to the most-recently-used end
    keeps the entries. *)
Lemma move_to_end_Permutation k c l :
  TTLCache.wf c -> TTLCache.find k c = Some l ->
  Permutation c (TTLCache.remove k c ++ [l]).
Proof.
  unfold TTLCache.wf. induction c as [|x c IH]; simpl; [discriminate|].
  intros Hwf. inversion Hwf as [|? ? Hx Hc]; subst.
  destruct (String.eqb_spec (TTLCache.key x) k) as [E|E]; simpl.
  - intros [= <-]. fold (TTLCache.remove k c). rewrite TTLCacheFacts.remove_id.
    + apply Permutation_cons_append.
    + apply TTLCacheFacts.find_not_In. intros l Hl El. apply Hx.
      rewrite E, <- El. now apply List.in_map.
  - intros Hf. fold (TTLCache.remove k c). apply perm_skip. auto.
Qed.

Lemma getitem_Permutation c k now :
  TTLCache.wf c -> Permutation c (snd (TTLCache.getitem c k now)).
Proof.
  intros Hwf. unfold TTLCache.getitem.
  destruct (TTLCache.find k c) as [l|] eqn:Hf; [|reflexivity].
  destruct (now <? TTLCache.expires l); simpl; now apply move_to_end_Permutation.
Qed.

(** C9.  A request to the profile route that is not answered 200 (not found,
    rate limited, upstream failure, internal error) writes nothing to the
    cache: every key maps to the entry it mapped to before, the cache holds
    the same entries (identical, but for the recency order when an entry
    expired between the membership test and the read).  A cache write
    happens only after the upstream returned a record with an identity, and
    the request is then answered with that record. *)
Theorem profile_errors_leave_cache ucd py_str env client u app :
  let '(resp, app', tr) := handle ucd py_str env (GET_scrape client u) app in
  (response_status resp <> 200 ->
     cache_writes tr = 0%nat /\
     (forall k, TTLCache.find k (cache app') = TTLCache.find k (cache app)) /\
     (TTLCache.wf (cache app) -> Permutation (cache app) (cache app')) /\
     (TTLCache.contains (cache app) (lower ucd u) (t_contains (clock env)) = false ->
        cache app' = cache app)) /\
  (cache_writes tr <> 0%nat ->
     exists p,
       upstream env (lower ucd u) = Ret p /\
       py_not (instaloader.userid p) = false /\
       resp = ProfileResponse (profile_data_of p) /\
       tr = [CacheContains (lower ucd u); UpstreamQuery (lower ucd u); CacheSetitem (lower ucd u)]).
Proof.
  unfold handle.
  destruct (Limiter.hit (limiter app) (limit_key client u) (wall_clock env)) as [[|] st];
    [|simpl; split; [auto 6|intros H; now contradiction H]].
  destruct (scrape_paths ucd (clock env) (upstream env) u (cache app))
    as [Hc|e Hc Hup|p Hc Hup Hid|p Hc Hup Hid].
  - rewrite (scrape_hit ucd py_str _ _ _ _ Hc). cbn [cache]. split.
    + intros _. split; [reflexivity|]. split; [apply TTLCacheFacts.getitem_find|].
      split; [apply getitem_Permutation|]. rewrite Hc. discriminate.
    + intros H. now contradiction H.
  - rewrite (scrape_miss_raise ucd py_str _ _ _ _ e Hc Hup). cbn [cache]. split.
    + intros _. auto 6.
    + intros H. now contradiction H.
  - rewrite (scrape_miss_invalid ucd py_str _ _ _ _ p Hc Hup Hid). cbn [cache]. split.
    + intros _. auto 6.
    + intros H. now contradiction H.
  - rewrite (scrape_miss_ok ucd py_str _ _ _ _ p Hc Hup Hid). cbn [cache]. split.
    + intros H. now contradiction H.
    + intros _. exists p. auto.
Qed.

Lemma profile_errors_leave_cache_witness :
  let app := mkApp ∅ [TTLCache.mkLink "nasa" (profile_data_of nasa) 3602] in
  let env := env_of 10 (mkClock 10 10 11) upstream_nasa in
  response_status (fst (fst (handle ascii_only str_args env (GET_scrape "203.0.113.7" "ghost") app)))
  = 500 /\
  TTLCache.contains (cache app) (lower ascii_only "ghost") 10 = false /\
  cache (snd (fst (handle ascii_only str_args env (GET_scrape "203.0.113.7" "ghost") app)))
  = cache app.
Proof.
  intros app env.
  pose proof (profile_errors_leave_cache ascii_only str_args env "203.0.113.7" "ghost" app) as H.
  destruct (handle ascii_only str_args env (GET_scrape "203.0.113.7" "ghost") app)
    as [[resp app'] tr] eqn:E.
  assert (Hs : response_status resp = 500).
  { apply (f_equal (fun x => response_status (fst (fst x)))) in E.
    simpl in E. symmetry. exact E. }
  destruct H as [H _]. cbn [fst snd].
  split; [exact Hs|]. split; [reflexivity|].
  destruct H as (_ & _ & _ & Hsame); [rewrite Hs; discriminate|].
  apply Hsame. reflexivity.
Defined.

(** ** Invariants of the running service *)

Lemma handle_invariant ucd py_str env req app :
  TTLCache.wf (cache app) /\ (List.length (cache app) <= TTLCache.maxsize)%nat ->
  TTLCache.wf (cache (snd (fst (handle ucd py_str env req app)))) /\
  (List.length (cache (snd (fst (handle ucd py_str env req app)))) <= TTLCache.maxsize)%nat.
Proof.
  intros [Hwf Hlen]. destruct req as [client u|client url|client]; unfold handle.
  - destruct (Limiter.hit (limiter app) (limit_key client u) (wall_clock env)) as [[|] st];
      [|simpl; auto].
    destruct (scrape_paths ucd (clock env) (upstream env) u (cache app))
      as [Hc|e Hc Hup|p Hc Hup Hid|p Hc Hup Hid].
    + rewrite (scrape_hit ucd py_str _ _ _ _ Hc). cbn [fst snd cache]. split.
      * now apply TTLCacheFacts.wf_getitem.
      * pose proof (TTLCacheFacts.getitem_length (cache app) (lower ucd u)
                      (t_getitem (clock env))). lia.
    + rewrite (scrape_miss_raise ucd py_str _ _ _ _ e Hc Hup). simpl. auto.
    + rewrite (scrape_miss_invalid ucd py_str _ _ _ _ p Hc Hup Hid). simpl. auto.
    + rewrite (scrape_miss_ok ucd py_str _ _ _ _ p Hc Hup Hid). cbn [fst snd cache]. split.
      * now apply TTLCacheFacts.wf_setitem.
      * now apply TTLCacheFacts.setitem_length.
  - simpl. auto.
  - unfold health_check, TTLCache.len. cbn [fst snd cache]. split.
    + now apply TTLCacheFacts.wf_filter.
    + pose proof (TTLCacheFacts.expire_length (t_contains (clock env)) (cache app)). lia.
Qed.

Lemma reachable_invariant ucd py_str app :
  reachable ucd py_str app ->
  TTLCache.wf (cache app) /\ (List.length (cache app) <= TTLCache.maxsize)%nat.
Proof.
  induction 1 as [|app env req _ IH].
  - split; [constructor|simpl; lia].
  - now apply handle_invariant.
Qed.

(** C6.  The cache is configured with capacity 1000 and TTL 3600.  In every
    state the service can reach the cache holds at most 1000 entries (one
    per key).  Inserting a new key into a full cache leaves at most 1000
    entries and evicts an entry that was there: its key is gone.  An entry
    older than the TTL is absent for the membership test and for the read,
    purged or not, and the handler never answers with it: a record it
    returns then comes from the upstream. *)
Theorem cache_capacity_and_ttl ucd py_str :
  TTLCache.maxsize = 1000%nat /\ TTLCache.ttl = 3600 /\
  (forall app,
     reachable ucd py_str app ->
     (List.length (cache app) <= 1000)%nat /\ TTLCache.wf (cache app)) /\
  (forall c k v now,
     TTLCache.wf c ->
     List.length c = 1000%nat ->
     TTLCache.find k c = None ->
     (List.length (TTLCache.setitem c k v now) <= 1000)%nat /\
     exists l, In l c /\
               TTLCache.find (TTLCache.key l) (TTLCache.setitem c k v now) = None) /\
  (forall c k l now,
     TTLCache.find k c = Some l ->
     age l now > 3600 ->
     TTLCache.contains c k now = false /\
     fst (TTLCache.getitem c k now) = Raise (Exc KeyError k)) /\
  (forall clk upstream u c l pd,
     TTLCache.find (lower ucd u) c = Some l ->
     age l (t_contains clk) > 3600 \/ age l (t_getitem clk) > 3600 ->
     fst (fst (scrape ucd py_str clk upstream u c)) = Ret pd ->
     exists p, upstream (lower ucd u) = Ret p /\ pd = profile_data_of p).
Proof.
  refine (conj eq_refl (conj eq_refl (conj _ (conj _ (conj _ _))))).
  - intros app Hr. destruct (reachable_invariant _ _ _ Hr). auto.
  - intros c k v now Hwf Hlen Hk. split.
    + apply TTLCacheFacts.setitem_length. unfold TTLCache.maxsize. lia.
    + now apply TTLCacheFacts.setitem_full_evicts.
  - intros c k l now Hf Hage. unfold age, TTLCache.ttl in Hage.
    unfold TTLCache.contains, TTLCache.getitem. rewrite Hf.
    destruct (Z.ltb_spec now (TTLCache.expires l)); [lia|]. auto.
  - intros clk upstream u c l pd Hf Hage Hr. unfold age, TTLCache.ttl in Hage.
    destruct (scrape ucd py_str clk upstream u c) as [[r c'] tr] eqn:E.
    cbn [fst] in Hr. subst r.
    destruct (scrape_success_entry _ _ _ _ _ _ _ _ _ E) as (l' & Hf' & Hv & Hcase).
    destruct (TTLCache.contains c (lower ucd u) (t_contains clk)) eqn:Hc.
    + exfalso. destruct Hcase as [_ Hlive].
      rewrite (scrape_hit ucd py_str _ _ _ _ Hc) in E. injection E as _ <- _.
      rewrite TTLCacheFacts.getitem_find, Hf in Hf'. injection Hf' as <-.
      unfold TTLCache.contains in Hc. rewrite Hf in Hc. apply Z.ltb_lt in Hc. lia.
    + destruct Hcase as (_ & _ & p & Hup & _ & ->). eauto.
Qed.

Lemma cache_capacity_and_ttl_witness :
  (List.length
     (cache (snd (fst (handle ascii_only str_args (env_of 0 (mkClock 0 0 2) upstream_nasa)
                         (GET_scrape "203.0.113.7" "nasa") init)))) <= 1000)%nat /\
  (TTLCache.wf full_cache /\ List.length full_cache = 1000%nat /\
   TTLCache.find "nasa" full_cache = None /\
   (List.length (TTLCache.setitem full_cache "nasa" (profile_data_of nasa) 0) <= 1000)%nat /\
   exists l, In l full_cache /\
             TTLCache.find (TTLCache.key l)
               (TTLCache.setitem full_cache "nasa" (profile_data_of nasa) 0) = None) /\
  (age (TTLCache.mkLink "nasa" (profile_data_of nasa) 3602) 3603 > 3600 /\
   TTLCache.contains [TTLCache.mkLink "nasa" (profile_data_of nasa) 3602] "nasa" 3603
   = false).
Proof.
  destruct (cache_capacity_and_ttl ascii_only str_args) as (_ & _ & Hcap & Hevict & Hexp & _).
  split; [|split].
  - apply Hcap. apply reachable_step. apply reachable_init.
  - assert (Hwf : TTLCache.wf full_cache).
    { unfold TTLCache.wf. apply NoDup_ListNoDup. apply (bool_decide_unpack _).
      vm_compute. exact I. }
    assert (Hlen : List.length full_cache = 1000%nat) by (vm_compute; reflexivity).
    assert (Hnew : TTLCache.find "nasa" full_cache = None) by (vm_compute; reflexivity).
    split; [exact Hwf|]. split; [exact Hlen|]. split; [exact Hnew|].
    exact (Hevict full_cache "nasa" (profile_data_of nasa) 0 Hwf Hlen Hnew).
  - split; [reflexivity|].
    apply (Hexp [TTLCache.mkLink "nasa" (profile_data_of nasa) 3602] "nasa"
             (TTLCache.mkLink "nasa" (profile_data_of nasa) 3602) 3603);
      reflexivity.
Defined.

(** ** Scenarios, run *)

(** Eleven requests of one client within a minute: the eleventh is answered
    429; the first fetches from the upstream, the others are cache hits. *)
Example eleven_requests_in_a_minute :
  let req (t : Z) :=
    (env_of t (mkClock t t (t + 1)) upstream_nasa, GET_scrape "203.0.113.7" "nasa") in
  List.map response_status
    (fst (serve ascii_only str_args (List.map req [0; 1; 2; 3; 4; 5; 6; 7; 8; 9; 10]) init))
  = [200; 200; 200; 200; 200; 200; 200; 200; 200; 200; 429].
Proof. vm_compute. reflexivity. Qed.

(** The rate limit of the profile route does not reach the other routes. *)
Example other_routes_after_the_limit :
  let req (t : Z) :=
    (env_of t (mkClock t t (t + 1)) upstream_nasa, GET_scrape "203.0.113.7" "nasa") in
  let app := snd (serve ascii_only str_args (List.map req [0; 1; 2; 3; 4; 5; 6; 7; 8; 9; 10]) init) in
  List.map response_status
    (fst (serve ascii_only str_args
            [(env_of 11 (mkClock 11 11 11) upstream_nasa, GET_health "203.0.113.7");
             (env_of 12 (mkClock 12 12 12) upstream_nasa,
              GET_proxy_image "203.0.113.7" "https://example.com/img.jpg");
             (env_of 13 (mkClock 13 13 13) upstream_nasa, GET_scrape "203.0.113.7" "nasa");
             (env_of 60 (mkClock 60 60 60) upstream_nasa, GET_scrape "203.0.113.7" "nasa")]
            app))
  = [200; 200; 429; 200].
Proof. vm_compute. reflexivity. Qed.

(** A fetch of the image proxy that times out is answered 500. *)
Example proxy_image_timeout :
  respond ImageResponse (proxy_image fetch_timeout "https://example.com/img.jpg")
  = HTTPErrorResponse 500 (DetailStr "Image fetch failed").
Proof. reflexivity. Qed.

(** An entry that expires between the membership test and the read: the
    request is answered 500 and the upstream is not called. *)
Example entry_expires_between_test_and_read :
  scrape ascii_only str_args (mkClock 3601 3602 3603) upstream_nasa "nasa"
    [TTLCache.mkLink "nasa" (profile_data_of nasa) 3602]
  = (Raise (HTTPException 500 (DetailDict "Internal error" "nasa")),
     [TTLCache.mkLink "nasa" (profile_data_of nasa) 3602],
     [CacheContains "nasa"; CacheGetitem "nasa"]).
Proof. reflexivity. Qed.

(** * Further properties of the handlers *)

(** ** One request to the profile route *)

(** X1.  A request to the profile route runs one of three sequences of
    operations, all on the lower-cased username: membership test and read;
    membership test and upstream query; membership test, upstream query and
    cache write.  The upstream is queried exactly when the membership test
    fails, and never more than once: the handler does not retry. *)
Theorem scrape_trace_shape ucd py_str clk upstream u c :
  let tr := snd (scrape ucd py_str clk upstream u c) in
  (tr = trace_hit (lower ucd u) \/ tr = trace_miss (lower ucd u) \/ tr = trace_fetch (lower ucd u)) /\
  upstream_calls tr
  = (if TTLCache.contains c (lower ucd u) (t_contains clk) then 0 else 1)%nat /\
  (cache_writes tr <= upstream_calls tr)%nat.
Proof.
  cbv zeta.
  destruct (scrape_paths ucd clk upstream u c) as [Hc|e Hc Hup|p Hc Hup Hid|p Hc Hup Hid].
  - rewrite (scrape_hit ucd py_str _ _ _ _ Hc), Hc. cbn [snd].
    split; [now left|]. split; [reflexivity|]. unfold cache_writes, upstream_calls.
    simpl. lia.
  - rewrite (scrape_miss_raise ucd py_str _ _ _ _ e Hc Hup), Hc. cbn [snd].
    split; [right; now left|]. split; [reflexivity|].
    unfold cache_writes, upstream_calls. simpl. lia.
  - rewrite (scrape_miss_invalid ucd py_str _ _ _ _ p Hc Hup Hid), Hc. cbn [snd].
    split; [right; now left|]. split; [reflexivity|].
    unfold cache_writes, upstream_calls. simpl. lia.
  - rewrite (scrape_miss_ok ucd py_str _ _ _ _ p Hc Hup Hid), Hc. cbn [snd].
    split; [right; now right|]. split; [reflexivity|].
    unfold cache_writes, upstream_calls. simpl. lia.
Qed.

(** X2.  The profile route answers with status 200, 429, 500 or 503 and with
    no other: in particular never with 404, although the handler raises
    [HTTPException(status_code=404)] in two places. *)
Theorem profile_route_statuses ucd py_str env client u app :
  let sc := response_status (fst (fst (handle ucd py_str env (GET_scrape client u) app))) in
  (sc = 200 \/ sc = 429 \/ sc = 500 \/ sc = 503) /\ sc <> 404.
Proof.
  cbv zeta. destruct env as [wall k up get]. unfold handle.
  cbn beta iota delta -[Limiter.hit scrape limit_key].
  destruct (Limiter.hit (limiter app) (limit_key client u) wall) as [[|] st];
    [|simpl; split; [auto|discriminate]].
  pose proof (scrape_result_shape ucd py_str k up u (cache app)) as Hs.
  destruct (scrape ucd py_str k up u (cache app)) as [[r c'] tr].
  cbn [fst] in *. destruct r as [v|[sc [err det|s]|cls a]]; simpl in *;
    [split; [auto|discriminate]| |contradiction|contradiction].
  destruct Hs as [[-> | ->] _]; split; auto; discriminate.
Qed.

Lemma outer_except_code py_str e :
  response_status (respond ProfileResponse (Raise (outer_except py_str e)))
  = if is_ConnectionException e then 503 else 500.
Proof.
  unfold outer_except. destruct (is_ConnectionException e); [reflexivity|].
  destruct (is_InstaloaderException e); reflexivity.
Qed.

Lemma contains_getitem c k now :
  TTLCache.contains c k now = true <->
  exists l, TTLCache.find k c = Some l /\
            TTLCache.getitem c k now = (Ret (TTLCache.value l), TTLCache.remove k c ++ [l]).
Proof.
  unfold TTLCache.contains, TTLCache.getitem.
  destruct (TTLCache.find k c) as [l|].
  - destruct (now <? TTLCache.expires l); split.
    + intros _. eauto.
    + reflexivity.
    + discriminate.
    + intros (l' & [= <-] & [=]).
  - split; [discriminate|]. intros (l' & [=] & _).
Qed.

(** X3.  What the handler does with a profile the upstream does not know,
    for every request that misses the cache: the 404 it raises, whose detail
    names the username as it was typed, is caught by the last [except]
    clause and wrapped into a 500 "Internal error"; likewise the 404 for a
    record without [userid].  The cache is not touched and the upstream was
    asked once. *)
Theorem scrape_unknown_profile ucd py_str clk upstream u c :
  TTLCache.contains c (lower ucd u) (t_contains clk) = false ->
  (forall e,
     upstream (lower ucd u) = Raise e ->
     is_ProfileNotExistsException e = true ->
     scrape ucd py_str clk upstream u c
     = (Raise (HTTPException 500
                 (DetailDict "Internal error" (py_str (profile_not_found u)))),
        c, trace_miss (lower ucd u))) /\
  (forall p,
     upstream (lower ucd u) = Ret p ->
     py_not (instaloader.userid p) = true ->
     scrape ucd py_str clk upstream u c
     = (Raise (HTTPException 500
                 (DetailDict "Internal error" (py_str invalid_data))),
        c, trace_miss (lower ucd u))).
Proof.
  intros Hmiss. split.
  - intros e Hup He. rewrite (scrape_miss_raise ucd py_str _ _ _ _ e Hmiss Hup).
    unfold inner_except. rewrite He. reflexivity.
  - intros p Hup Hid. rewrite (scrape_miss_invalid ucd py_str _ _ _ _ p Hmiss Hup Hid).
    reflexivity.
Qed.

Lemma scrape_unknown_profile_witness :
  TTLCache.contains TTLCache.empty (lower ascii_only "NoSuchUser") 0 = false /\
  is_ProfileNotExistsException
    (Exc ProfileNotExistsException "Profile nosuchuser does not exist.") = true /\
  scrape ascii_only str_args (mkClock 0 0 1) upstream_nasa "NoSuchUser" TTLCache.empty
  = (Raise (HTTPException 500 (DetailDict "Internal error" "Profile not found")),
     TTLCache.empty,
     [CacheContains "nosuchuser"; UpstreamQuery "nosuchuser"]).
Proof.
  split; [reflexivity|]. split; [reflexivity|].
  destruct (scrape_unknown_profile ascii_only str_args (mkClock 0 0 1) upstream_nasa
              "NoSuchUser" TTLCache.empty eq_refl) as [H _].
  exact (H (Exc ProfileNotExistsException "Profile nosuchuser does not exist.")
           eq_refl eq_refl).
Defined.

(** X4.  When the profile handler succeeds and when it answers 503.  It
    returns a record exactly when the entry is live at the membership test
    and at the read, or the test fails and the upstream returns a record
    with a [userid].  It raises the 503 exactly when the membership test
    fails and the upstream raises a [ConnectionException]. *)
Theorem scrape_outcome_iff ucd py_str clk upstream u c :
  ((exists pd, fst (fst (scrape ucd py_str clk upstream u c)) = Ret pd) <->
   (TTLCache.contains c (lower ucd u) (t_contains clk) = true /\
    TTLCache.contains c (lower ucd u) (t_getitem clk) = true) \/
   (TTLCache.contains c (lower ucd u) (t_contains clk) = false /\
    exists p, upstream (lower ucd u) = Ret p /\ py_not (instaloader.userid p) = false)) /\
  (response_status (respond ProfileResponse (fst (fst (scrape ucd py_str clk upstream u c))))
   = 503 <->
   TTLCache.contains c (lower ucd u) (t_contains clk) = false /\
   exists e, upstream (lower ucd u) = Raise e /\ is_ConnectionException e = true).
Proof.
  destruct (scrape_paths ucd clk upstream u c) as [Hc|e Hc Hup|p Hc Hup Hid|p Hc Hup Hid].
  - rewrite (scrape_hit ucd py_str _ _ _ _ Hc). cbn [fst]. split.
    + split.
      * intros [pd Hpd]. left. split; [assumption|].
        unfold TTLCache.contains, TTLCache.getitem in *.
        destruct (TTLCache.find (lower ucd u) c) as [l|]; [|discriminate].
        destruct (t_getitem clk <? TTLCache.expires l); [reflexivity|discriminate].
      * intros [[_ Hg]|[Hm _]]; [|congruence].
        apply contains_getitem in Hg as (l & _ & ->). eauto.
    + split.
      * destruct (fst (TTLCache.getitem c (lower ucd u) (t_getitem clk))) as [v|e] eqn:Hg;
          [discriminate|].
        rewrite outer_except_code.
        unfold TTLCache.getitem in Hg.
        destruct (TTLCache.find (lower ucd u) c) as [l|].
        -- destruct (t_getitem clk <? TTLCache.expires l); simpl in Hg;
             [discriminate|]. injection Hg as <-. discriminate.
        -- simpl in Hg. injection Hg as <-. discriminate.
      * intros [Hm _]. congruence.
  - rewrite (scrape_miss_raise ucd py_str _ _ _ _ e Hc Hup). cbn [fst]. split.
    + split.
      * intros [pd [=]].
      * intros [[Hh _]|[_ (p & Hp & _)]]; congruence.
    + rewrite outer_except_code. unfold inner_except. split.
      * intros H. split; [assumption|]. exists e. split; [assumption|].
        destruct (is_ProfileNotExistsException e); [discriminate|].
        destruct (is_ConnectionException e); [reflexivity|discriminate].
      * intros [_ (e' & He' & Hconn)]. rewrite Hup in He'. injection He' as <-.
        destruct e as [sc d|[]]; simpl in *; (discriminate || reflexivity).
  - rewrite (scrape_miss_invalid ucd py_str _ _ _ _ p Hc Hup Hid). cbn [fst]. split.
    + split.
      * intros [pd [=]].
      * intros [[Hh _]|[_ (p' & Hp' & Hid')]]; [congruence|].
        rewrite Hup in Hp'. injection Hp' as <-. congruence.
    + split; [discriminate|]. intros [_ (e & He & _)]. congruence.
  - rewrite (scrape_miss_ok ucd py_str _ _ _ _ p Hc Hup Hid). cbn [fst]. split.
    + split; [|eauto]. intros _. right. eauto.
    + split; [discriminate|]. intros [_ (e & He & _)]. congruence.
Qed.

Lemma scrape_outcome_iff_witness :
  (TTLCache.contains TTLCache.empty (lower ascii_only "nasa") 0 = false /\
   exists e, upstream_down (lower ascii_only "nasa") = Raise e /\ is_ConnectionException e = true) /\
  response_status
    (respond ProfileResponse
       (fst (fst (scrape ascii_only str_args (mkClock 0 0 1) upstream_down "nasa" TTLCache.empty))))
  = 503.
Proof.
  assert (H : TTLCache.contains TTLCache.empty (lower ascii_only "nasa") 0 = false /\
              exists e, upstream_down (lower ascii_only "nasa") = Raise e /\
                        is_ConnectionException e = true).
  { split; [reflexivity|]. eexists. split; reflexivity. }
  split; [exact H|].
  destruct (scrape_outcome_iff ascii_only str_args (mkClock 0 0 1) upstream_down "nasa"
              TTLCache.empty) as [_ [_ H503]].
  exact (H503 H).
Defined.

(** X5.  A cache hit does not depend on the upstream: with a live entry at
    the membership test, the result, the cache afterwards and the operations
    performed are the same whatever the upstream would answer (down, profile
    removed, profile changed). *)
Theorem scrape_hit_ignores_upstream ucd py_str clk up1 up2 u c :
  TTLCache.contains c (lower ucd u) (t_contains clk) = true ->
  scrape ucd py_str clk up1 u c = scrape ucd py_str clk up2 u c.
Proof.
  intros Hc. now rewrite !(scrape_hit ucd py_str _ _ _ _ Hc).
Qed.

Lemma scrape_hit_ignores_upstream_witness :
  TTLCache.contains [TTLCache.mkLink "nasa" (profile_data_of nasa) 3602]
    (lower ascii_only "Nasa") 100 = true /\
  scrape ascii_only str_args (mkClock 100 100 101) upstream_nasa "Nasa"
    [TTLCache.mkLink "nasa" (profile_data_of nasa) 3602]
  = scrape ascii_only str_args (mkClock 100 100 101) upstream_down "Nasa"
      [TTLCache.mkLink "nasa" (profile_data_of nasa) 3602].
Proof.
  split; [reflexivity|].
  apply (scrape_hit_ignores_upstream ascii_only str_args (mkClock 100 100 101)
           upstream_nasa upstream_down "Nasa"). reflexivity.
Defined.

(** ** Two requests in a row *)

Lemma contains_false_later c k t t' :
  TTLCache.contains c k t = false -> t <= t' -> TTLCache.contains c k t' = false.
Proof.
  unfold TTLCache.contains. destruct (TTLCache.find k c) as [l|]; [|reflexivity].
  intros H Hle. apply Z.ltb_ge in H. apply Z.ltb_ge. lia.
Qed.

Lemma contains_ext c c' k t :
  TTLCache.find k c' = TTLCache.find k c ->
  TTLCache.contains c' k t = TTLCache.contains c k t.
Proof. unfold TTLCache.contains. now intros ->. Qed.

(** After an error the entry of the username is absent at every later time. *)
Lemma scrape_error_absent ucd py_str clk upstream u c e c1 tr1 t :
  scrape ucd py_str clk upstream u c = (Raise e, c1, tr1) ->
  t_contains clk <= t -> t_getitem clk <= t ->
  TTLCache.contains c1 (lower ucd u) t = false.
Proof.
  intros H Ht1 Ht2.
  destruct (scrape_paths ucd clk upstream u c) as [Hc|e' Hc Hup|p Hc Hup Hid|p Hc Hup Hid].
  - rewrite (scrape_hit ucd py_str _ _ _ _ Hc) in H.
    injection H as Hr <- _.
    rewrite (contains_ext c) by apply TTLCacheFacts.getitem_find.
    apply (contains_false_later _ _ (t_getitem clk)); [|assumption].
    destruct (TTLCache.contains c (lower ucd u) (t_getitem clk)) eqn:Hg; [|reflexivity].
    apply contains_getitem in Hg as (l & _ & Hg). rewrite Hg in Hr. discriminate.
  - rewrite (scrape_miss_raise ucd py_str _ _ _ _ e' Hc Hup) in H. injection H as _ <- _.
    now apply (contains_false_later _ _ (t_contains clk)).
  - rewrite (scrape_miss_invalid ucd py_str _ _ _ _ p Hc Hup Hid) in H.
    injection H as _ <- _. now apply (contains_false_later _ _ (t_contains clk)).
  - rewrite (scrape_miss_ok ucd py_str _ _ _ _ p Hc Hup Hid) in H. discriminate.
Qed.

(** X6.  Failures are not cached.  After a request that ended in an error,
    a later request for the same username (in any letter case) asks the
    upstream again, and succeeds if the upstream now returns a record with a
    [userid]. *)
Theorem scrape_errors_not_cached ucd py_str clk1 up1 u c e c1 tr1 clk2 up2 u2 :
  scrape ucd py_str clk1 up1 u c = (Raise e, c1, tr1) ->
  lower ucd u2 = lower ucd u ->
  t_contains clk1 <= t_contains clk2 ->
  t_getitem clk1 <= t_contains clk2 ->
  upstream_calls (snd (scrape ucd py_str clk2 up2 u2 c1)) = 1%nat /\
  (forall p,
     up2 (lower ucd u) = Ret p ->
     py_not (instaloader.userid p) = false ->
     fst (fst (scrape ucd py_str clk2 up2 u2 c1)) = Ret (profile_data_of p)).
Proof.
  intros H Hu Ht1 Ht2.
  pose proof (scrape_error_absent _ _ _ _ _ _ _ _ _ _ H Ht1 Ht2) as Hmiss.
  rewrite <- Hu in *. split.
  - destruct (scrape_paths ucd clk2 up2 u2 c1) as [Hc|e' Hc Hup|p Hc Hup Hid|p Hc Hup Hid].
    + congruence.
    + now rewrite (scrape_miss_raise ucd py_str _ _ _ _ e' Hc Hup).
    + now rewrite (scrape_miss_invalid ucd py_str _ _ _ _ p Hc Hup Hid).
    + now rewrite (scrape_miss_ok ucd py_str _ _ _ _ p Hc Hup Hid).
  - intros p Hup Hid. now rewrite (scrape_miss_ok ucd py_str _ _ _ _ p Hmiss Hup Hid).
Qed.

Lemma scrape_errors_not_cached_witness :
  exists e c1 tr1,
    scrape ascii_only str_args (mkClock 0 0 1) upstream_down "nasa" TTLCache.empty
    = (Raise e, c1, tr1) /\
    upstream_calls (snd (scrape ascii_only str_args (mkClock 5 5 6) upstream_nasa "NASA" c1))
    = 1%nat /\
    fst (fst (scrape ascii_only str_args (mkClock 5 5 6) upstream_nasa "NASA" c1))
    = Ret (profile_data_of nasa).
Proof.
  do 3 eexists. split; [reflexivity|].
  destruct (scrape_errors_not_cached ascii_only str_args (mkClock 0 0 1) upstream_down "nasa"
              TTLCache.empty _ _ _ (mkClock 5 5 6) upstream_nasa "NASA"
              eq_refl eq_refl) as [Hcalls Hok]; [discriminate|discriminate|].
  split; [exact Hcalls|]. apply Hok; reflexivity.
Defined.

(** X7.  Only a cache write changes what the cache maps a key to.  After a
    request that performs no write (a hit or an error), every key maps to
    the entry it mapped to before, with the expiry it had: reading an entry
    does not prolong its life, and the membership test gives the same
    answers at every time. *)
Theorem scrape_read_keeps_expiry ucd py_str clk upstream u c :
  cache_writes (snd (scrape ucd py_str clk upstream u c)) = 0%nat ->
  forall k,
    TTLCache.find k (snd (fst (scrape ucd py_str clk upstream u c))) = TTLCache.find k c /\
    forall t,
      TTLCache.contains (snd (fst (scrape ucd py_str clk upstream u c))) k t
      = TTLCache.contains c k t.
Proof.
  intros Hw k.
  assert (Hf : TTLCache.find k (snd (fst (scrape ucd py_str clk upstream u c)))
               = TTLCache.find k c).
  { destruct (scrape_paths ucd clk upstream u c) as [Hc|e Hc Hup|p Hc Hup Hid|p Hc Hup Hid].
    - rewrite (scrape_hit ucd py_str _ _ _ _ Hc). apply TTLCacheFacts.getitem_find.
    - now rewrite (scrape_miss_raise ucd py_str _ _ _ _ e Hc Hup).
    - now rewrite (scrape_miss_invalid ucd py_str _ _ _ _ p Hc Hup Hid).
    - rewrite (scrape_miss_ok ucd py_str _ _ _ _ p Hc Hup Hid) in Hw. discriminate. }
  split; [exact Hf|]. intros t. now apply contains_ext.
Qed.

Lemma scrape_read_keeps_expiry_witness :
  cache_writes
    (snd (scrape ascii_only str_args (mkClock 100 100 101) upstream_nasa "nasa"
            [TTLCache.mkLink "nasa" (profile_data_of nasa) 3602])) = 0%nat /\
  TTLCache.find "nasa"
    (snd (fst (scrape ascii_only str_args (mkClock 100 100 101) upstream_nasa "nasa"
                 [TTLCache.mkLink "nasa" (profile_data_of nasa) 3602])))
  = Some (TTLCache.mkLink "nasa" (profile_data_of nasa) 3602).
Proof.
  split; [reflexivity|].
  apply (scrape_read_keeps_expiry ascii_only str_args (mkClock 100 100 101) upstream_nasa "nasa"
           [TTLCache.mkLink "nasa" (profile_data_of nasa) 3602] eq_refl "nasa").
Defined.

Lemma find_filter_keep f k c l :
  TTLCache.find k c = Some l -> f l = true ->
  TTLCache.find k (List.filter f c) = Some l.
Proof.
  induction c as [|x c IH]; simpl; [discriminate|].
  destruct (String.eqb (TTLCache.key x) k) eqn:E.
  - intros [= ->] Hf. rewrite Hf. simpl. now rewrite E.
  - intros H Hf. destruct (f x); simpl; [rewrite E|]; auto.
Qed.

(** X8.  A request leaves the entries of the other usernames alone: an
    entry under another key that has not expired when the request writes is
    still there afterwards, unchanged, as long as the cache was not full. *)
Theorem scrape_keeps_other_entries ucd py_str clk upstream u c k l :
  k <> lower ucd u ->
  TTLCache.find k c = Some l ->
  t_setitem clk < TTLCache.expires l ->
  (List.length c < TTLCache.maxsize)%nat ->
  TTLCache.find k (snd (fst (scrape ucd py_str clk upstream u c))) = Some l.
Proof.
  intros Hk Hf Hlive Hroom.
  destruct (scrape_paths ucd clk upstream u c) as [Hc|e Hc Hup|p Hc Hup Hid|p Hc Hup Hid].
  - rewrite (scrape_hit ucd py_str _ _ _ _ Hc). cbn [fst snd].
    now rewrite TTLCacheFacts.getitem_find.
  - now rewrite (scrape_miss_raise ucd py_str _ _ _ _ e Hc Hup).
  - now rewrite (scrape_miss_invalid ucd py_str _ _ _ _ p Hc Hup Hid).
  - rewrite (scrape_miss_ok ucd py_str _ _ _ _ p Hc Hup Hid). cbn [fst snd].
    unfold TTLCache.setitem.
    pose proof (TTLCacheFacts.expire_length (t_setitem clk) c) as Hle.
    rewrite TTLCacheFacts.make_room_id by lia.
    assert (Hsame : match TTLCache.find (lower ucd u) (TTLCache.expire (t_setitem clk) c) with
                    | Some _ => TTLCache.expire (t_setitem clk) c
                    | None => TTLCache.expire (t_setitem clk) c
                    end = TTLCache.expire (t_setitem clk) c)
      by now destruct (TTLCache.find (lower ucd u) (TTLCache.expire (t_setitem clk) c)).
    rewrite Hsame, TTLCacheFacts.find_app, TTLCacheFacts.find_remove_ne by congruence.
    unfold TTLCache.expire. rewrite (find_filter_keep _ _ _ l Hf); [reflexivity|].
    now apply Z.ltb_lt.
Qed.

Lemma scrape_keeps_other_entries_witness :
  "natgeo" <> lower ascii_only "NASA" /\
  TTLCache.find "natgeo"
    (snd (fst (scrape ascii_only str_args (mkClock 100 100 101) upstream_nasa "NASA"
                 [TTLCache.mkLink "natgeo" (profile_data_of nasa) 3602])))
  = Some (TTLCache.mkLink "natgeo" (profile_data_of nasa) 3602).
Proof.
  assert (Hne : "natgeo" <> lower ascii_only "NASA") by discriminate.
  split; [exact Hne|].
  apply (scrape_keeps_other_entries ascii_only str_args (mkClock 100 100 101) upstream_nasa
           "NASA" [TTLCache.mkLink "natgeo" (profile_data_of nasa) 3602] "natgeo");
    [exact Hne|reflexivity|reflexivity|unfold TTLCache.maxsize; simpl; lia].
Defined.

(** ** Invariants of the cache keys *)

Lemma lower_ascii_idempotent a : lower_ascii (lower_ascii a) = lower_ascii a.
Proof. destruct a as [[] [] [] [] [] [] [] []]; reflexivity. Qed.

Lemma lower_ascii_isascii a :
  (nat_of_ascii (lower_ascii a) <? 128)%nat = (nat_of_ascii a <? 128)%nat.
Proof. destruct a as [[] [] [] [] [] [] [] []]; reflexivity. Qed.

Lemma ascii_lower_idempotent s : ascii_lower (ascii_lower s) = ascii_lower s.
Proof.
  induction s as [|a s IH]; [reflexivity|].
  simpl. now rewrite lower_ascii_idempotent, IH.
Qed.

Lemma isascii_ascii_lower s : isascii (ascii_lower s) = isascii s.
Proof.
  induction s as [|a s IH]; [reflexivity|].
  cbn [ascii_lower isascii]. now rewrite lower_ascii_isascii, IH.
Qed.

(** Lower-casing twice is lower-casing once: computed for ASCII text, from
    the same fact about the Unicode tables for other text. *)
Lemma lower_idempotent ucd :
  (forall s, lower ucd (ucd s) = ucd s) ->
  forall s, lower ucd (lower ucd s) = lower ucd s.
Proof.
  intros Hucd s. unfold lower at 2 3. destruct (isascii s) eqn:E; [|apply Hucd].
  unfold lower. now rewrite isascii_ascii_lower, E, ascii_lower_idempotent.
Qed.

Lemma ascii_only_stable s : lower ascii_only (ascii_only s) = ascii_only s.
Proof.
  unfold lower, ascii_only. rewrite ascii_lower_idempotent.
  now destruct (isascii (ascii_lower s)).
Qed.

Lemma setitem_In c k v now l :
  In l (TTLCache.setitem c k v now) ->
  In l c \/ l = TTLCache.mkLink k v (now + TTLCache.ttl).
Proof.
  unfold TTLCache.setitem. rewrite List.in_app_iff. intros [H|[<-|[]]]; [left|now right].
  apply TTLCacheFacts.remove_In in H as [H _].
  destruct (TTLCache.find k (TTLCache.expire now c)).
  - now apply TTLCacheFacts.expire_In in H as [H _].
  - now apply TTLCacheFacts.make_room_incl, TTLCacheFacts.expire_In in H as [H _].
Qed.

Lemma getitem_In c k now l : In l (snd (TTLCache.getitem c k now)) -> In l c.
Proof.
  unfold TTLCache.getitem. destruct (TTLCache.find k c) as [l0|] eqn:Hf; [|auto].
  assert (In l (TTLCache.remove k c ++ [l0]) -> In l c) as H.
  { rewrite List.in_app_iff. intros [H|[<-|[]]].
    - now apply TTLCacheFacts.remove_In in H as [H _].
    - now destruct (TTLCacheFacts.find_Some _ _ _ Hf). }
  destruct (now <? TTLCache.expires l0); exact H.
Qed.

Lemma handle_lower_keys ucd py_str env req app :
  (forall s, lower ucd (ucd s) = ucd s) ->
  (forall l, In l (cache app) -> TTLCache.key l = lower ucd (TTLCache.key l)) ->
  forall l, In l (cache (snd (fst (handle ucd py_str env req app)))) ->
            TTLCache.key l = lower ucd (TTLCache.key l).
Proof.
  intros Hucd Hinv l. destruct env as [wall k up get].
  destruct req as [client u|client url|client]; unfold handle;
    cbn beta iota delta -[Limiter.hit scrape health_check limit_key].
  - destruct (Limiter.hit (limiter app) (limit_key client u) wall) as [[|] st]; [|simpl; auto].
    destruct (scrape_paths ucd k up u (cache app)) as [Hc|e Hc Hup|p Hc Hup Hid|p Hc Hup Hid].
    + rewrite (scrape_hit ucd py_str _ _ _ _ Hc). cbn [fst snd cache].
      intros H. apply Hinv. now apply getitem_In in H.
    + rewrite (scrape_miss_raise ucd py_str _ _ _ _ e Hc Hup). simpl. auto.
    + rewrite (scrape_miss_invalid ucd py_str _ _ _ _ p Hc Hup Hid). simpl. auto.
    + rewrite (scrape_miss_ok ucd py_str _ _ _ _ p Hc Hup Hid). cbn [fst snd cache].
      intros H. apply setitem_In in H as [H| ->]; [auto|].
      simpl. now rewrite lower_idempotent.
  - simpl. auto.
  - unfold health_check, TTLCache.len. cbn [fst snd cache].
    intros H. apply TTLCacheFacts.expire_In in H as [H _]. auto.
Qed.

(** X9.  In every state the service can reach, every key of the profile
    cache is a lower-cased string; a username with a capital letter is never
    a key of the cache.  (Lower-casing a lower-cased text gives the text
    back: the hypothesis says so of the Unicode tables; for ASCII text it is
    computed.) *)
Theorem cache_keys_are_lower_case ucd py_str app :
  (forall s, lower ucd (ucd s) = ucd s) ->
  reachable ucd py_str app ->
  (forall l, In l (cache app) -> TTLCache.key l = lower ucd (TTLCache.key l)) /\
  (forall u, lower ucd u <> u -> TTLCache.find u (cache app) = None).
Proof.
  intros Hucd Hr.
  assert (Hinv : forall l, In l (cache app) -> TTLCache.key l = lower ucd (TTLCache.key l)).
  { induction Hr as [|app env req _ IH]; [intros l []|].
    now apply handle_lower_keys. }
  split; [exact Hinv|].
  intros u Hu. apply TTLCacheFacts.find_not_In. intros l Hl Hk.
  apply Hu. rewrite <- Hk. symmetry. now apply Hinv.
Qed.

Lemma cache_keys_are_lower_case_witness :
  List.map TTLCache.key
    (cache (snd (fst (handle ascii_only str_args (env_of 0 (mkClock 0 0 2) upstream_nasa)
                        (GET_scrape "203.0.113.7" "NASA") init))))
  = ["nasa"] /\
  TTLCache.find "NASA"
    (cache (snd (fst (handle ascii_only str_args (env_of 0 (mkClock 0 0 2) upstream_nasa)
                        (GET_scrape "203.0.113.7" "NASA") init))))
  = None.
Proof.
  split; [reflexivity|].
  apply (cache_keys_are_lower_case ascii_only str_args).
  - exact ascii_only_stable.
  - apply reachable_step. apply reachable_init.
  - discriminate.
Defined.



Lemma find_filter_wf f k c :
  TTLCache.wf c ->
  TTLCache.find k (List.filter f c)
  = match TTLCache.find k c with
    | Some l => if f l then Some l else None
    | None => None
    end.
Proof.
  unfold TTLCache.wf. induction c as [|x c IH]; simpl; [reflexivity|].
  intros Hwf. inversion Hwf as [|? ? Hx Hc]; subst. specialize (IH Hc).
  destruct (String.eqb_spec (TTLCache.key x) k) as [E|E].
  - destruct (f x); simpl.
    + now apply String.eqb_eq in E as ->.
    + apply TTLCacheFacts.find_not_In. intros l Hl Hk.
      apply List.filter_In in Hl as [Hl _]. apply Hx. rewrite E, <- Hk.
      now apply List.in_map.
  - destruct (f x); simpl; [|exact IH].
    now apply String.eqb_neq in E as ->.
Qed.

(** X12.  In every state the service can reach, the health check answers
    200 with status "healthy", the wall-clock time and a cache size of at
    most 1000; it leaves the rate limiter alone, and the membership test of
    the cache gives the same answers afterwards as before, at every time
    from the health check on. *)
Theorem health_check_reachable ucd py_str app env client :
  reachable ucd py_str app ->
  exists h app',
    handle ucd py_str env (GET_health client) app = (HealthResponse h, app', []) /\
    status h = "healthy" /\
    timestamp h = wall_clock env /\
    (cache_size h <= 1000)%nat /\
    limiter app' = limiter app /\
    forall k t,
      t_contains (clock env) <= t ->
      TTLCache.contains (cache app') k t = TTLCache.contains (cache app) k t.
Proof.
  intros Hr. destruct (reachable_invariant _ _ _ Hr) as [Hwf Hlen].
  unfold handle, health_check, TTLCache.len. do 2 eexists.
  split; [reflexivity|]. cbn [status timestamp cache_size limiter cache].
  split; [reflexivity|]. split; [reflexivity|]. split.
  - pose proof (TTLCacheFacts.expire_length (t_contains (clock env)) (cache app)).
    unfold TTLCache.maxsize in Hlen. lia.
  - split; [reflexivity|]. intros k t Ht. unfold TTLCache.contains, TTLCache.expire.
    rewrite (find_filter_wf _ _ _ Hwf).
    destruct (TTLCache.find k (cache app)) as [l|]; [|reflexivity].
    destruct (Z.ltb_spec (t_contains (clock env)) (TTLCache.expires l)); [reflexivity|].
    symmetry. apply Z.ltb_ge. lia.
Qed.

Lemma health_check_reachable_witness :
  exists h app',
    handle ascii_only str_args (env_of 7 (mkClock 7 7 7) upstream_nasa) (GET_health "203.0.113.7")
      (snd (fst (handle ascii_only str_args (env_of 0 (mkClock 0 0 2) upstream_nasa)
                   (GET_scrape "203.0.113.7" "nasa") init)))
    = (HealthResponse h, app', []) /\
    status h = "healthy" /\ timestamp h = 7 /\ (cache_size h <= 1000)%nat.
Proof.
  destruct (health_check_reachable ascii_only str_args
              (snd (fst (handle ascii_only str_args (env_of 0 (mkClock 0 0 2) upstream_nasa)
                           (GET_scrape "203.0.113.7" "nasa") init)))
              (env_of 7 (mkClock 7 7 7) upstream_nasa) "203.0.113.7")
    as (h & app' & H & Hs & Ht & Hsz & _).
  - apply reachable_step. apply reachable_init.
  - exists h, app'. auto.
Defined.

(** A username beyond ASCII: with case mappings that know the word, the
    cache and the upstream are addressed by its lower-cased form. *)
Example ecole_is_lower_cased :
  snd (scrape ucd_ecole str_args (mkClock 0 0 1) upstream_nasa "ÉCOLE"
         TTLCache.empty)
  = [CacheContains "école"; UpstreamQuery "école"].
Proof. reflexivity. Qed.
